(** * The embedding-index handle of the NLUDB Python client

    A shallow embedding of [src/nludb/embedding_index.py]: the class
    [EmbeddingIndex], its nine methods and the static constructor [create].

    Every method builds one typed request and hands it to the transport
    collaborator ([self.nludb.post]).  The collaborator is an object the
    handle holds a reference to; here it is a record with one field, [post],
    a function over the state of the remote service.  Methods are written in
    a state-and-exception monad over the heap cell of the handle and the
    network (the service state and the trace of the calls issued). *)

From Stdlib Require Import ZArith QArith Lia.
From stdpp Require Import gmap strings list fin_maps sorting pretty.

Local Open Scope string_scope.
Local Open Scope Z_scope.
Set Warnings "-register-all".

(** ** Python values *)

(** The values the client moves around without looking inside: metadata
    ([Union[int, float, bool, str, List, Dict]]), the [pd] flag of [search],
    the fields of an undecoded JSON response.  A float is represented by the
    rational it denotes; a [dict] keeps its insertion order. *)
Inductive Value : Type :=
| VNone
| VBool (b : bool)
| VInt (z : Z)
| VFloat (q : Q)
| VStr (s : string)
| VList (l : list Value)
| VDict (d : list (string * Value)).

(** [isinstance(v, dict) or isinstance(v, list)] *)
Definition is_structured (v : Value) : bool :=
  match v with
  | VDict _ | VList _ => true
  | _ => false
  end.

(** [v is False]: identity with the singleton [False]. *)
Definition is_False (v : Value) : bool :=
  match v with
  | VBool false => true
  | _ => false
  end.

(** [bool(v)], Python's truth value. *)
Definition truthy (v : Value) : bool :=
  match v with
  | VNone => false
  | VBool b => b
  | VInt z => negb (z =? 0)
  | VFloat q => negb (Qeq_bool q 0)
  | VStr s => negb (String.eqb s "")
  | VList l => match l with [] => false | _ => true end
  | VDict d => match d with [] => false | _ => true end
  end.

(** ** Exceptions *)

(** The one failure the transport reports (spec, section 7). *)
Record RemoteRequestError : Type :=
  { status : Z; message : string }.

(** What a method can raise: the transport's failure, or Python's own
    [AttributeError] when an attribute is read off an object that lacks it
    (the string names the attribute). *)
Inductive Exn : Type :=
| Remote (e : RemoteRequestError)
| AttributeError (attr : string).

(** ** Wire types ([nludb.types.embedding_index]) *)

(** The request and response classes are declared in a module that is not
    among the sources.  A request class is taken to be a plain data class: its
    fields are the keywords the methods pass to its constructor, the
    constructor stores its arguments, an omitted keyword is [None]. *)

Module IndexItem.
(** Modelled from the spec: the class [IndexItem], which is not among the
    sources.  Section 3 gives its fields: raw text ([value]) or a reference to
    a file, block or span, plus an external id and type and metadata. *)
Record t : Type := mk
  { value : option string;
    fileId : option string;
    blockId : option string;
    spanId : option string;
    externalId : option string;
    externalType : option string;
    metadata : Value }.

(** [IndexItem(value=v)] *)
Definition of_value (v : string) : t :=
  mk (Some v) None None None None None VNone.
End IndexItem.

Module IndexInsertRequest.
Record t : Type := mk
  { indexId : Value;
    value : option string;
    items : option (list IndexItem.t);
    fileId : option string;
    blockType : option string;
    externalId : option string;
    externalType : option string;
    metadata : Value;
    reindex : bool }.
End IndexInsertRequest.

Module IndexEmbedRequest.
Record t : Type := mk { indexId : Value }.
End IndexEmbedRequest.

Module IndexSnapshotRequest.
Record t : Type := mk { indexId : Value }.
End IndexSnapshotRequest.

Module ListSnapshotsRequest.
Record t : Type := mk { indexId : Value }.
End ListSnapshotsRequest.

Module ListItemsRequest.
Record t : Type := mk
  { indexId : Value;
    fileId : option string;
    blockId : option string;
    spanId : option string }.
End ListItemsRequest.

Module DeleteSnapshotsRequest.
Record t : Type := mk { snapshotId : string }.
End DeleteSnapshotsRequest.

Module IndexDeleteRequest.
Record t : Type := mk { indexId : Value }.
End IndexDeleteRequest.

Module IndexSearchRequest.
Record t : Type := mk
  { indexId : Value;
    query : option string;
    queries : option (list string);
    k : Z;
    includeMetadata : bool }.
End IndexSearchRequest.

Module IndexCreateRequest.
Record t : Type := mk
  { name : string;
    model : string;
    upsert : bool;
    externalId : option string;
    externalType : option string;
    metadata : Value }.
End IndexCreateRequest.

(** The payload of a [post]: one of the request classes. *)
Inductive Request : Type :=
| ReqInsert (r : IndexInsertRequest.t)
| ReqEmbed (r : IndexEmbedRequest.t)
| ReqSnapshot (r : IndexSnapshotRequest.t)
| ReqListSnapshots (r : ListSnapshotsRequest.t)
| ReqListItems (r : ListItemsRequest.t)
| ReqDeleteSnapshots (r : DeleteSnapshotsRequest.t)
| ReqDelete (r : IndexDeleteRequest.t)
| ReqSearch (r : IndexSearchRequest.t)
| ReqCreate (r : IndexCreateRequest.t).

(** The class objects passed as [expect=]. *)
Module Cls.
Inductive t : Type :=
| IndexInsertResponse
| IndexEmbedRequest
| IndexEmbedResponse
| IndexSnapshotRequest
| IndexSnapshotResponse
| ListSnapshotsResponse
| ListItemsResponse
| DeleteSnapshotsResponse
| IndexDeleteResponse
| IndexSearchResponse.

Definition eqb (a b : t) : bool :=
  match a, b with
  | IndexInsertResponse, IndexInsertResponse
  | IndexEmbedRequest, IndexEmbedRequest
  | IndexEmbedResponse, IndexEmbedResponse
  | IndexSnapshotRequest, IndexSnapshotRequest
  | IndexSnapshotResponse, IndexSnapshotResponse
  | ListSnapshotsResponse, ListSnapshotsResponse
  | ListItemsResponse, ListItemsResponse
  | DeleteSnapshotsResponse, DeleteSnapshotsResponse
  | IndexDeleteResponse, IndexDeleteResponse
  | IndexSearchResponse, IndexSearchResponse => true
  | _, _ => false
  end.
End Cls.

(** The arguments of one [post] call; [expect] defaults to [None] and
    [asynchronous] to [False] when the caller omits them. *)
Record PostCall : Type :=
  { route : string;
    payload : Request;
    expect : option Cls.t;
    asynchronous : bool;
    spaceId : option string;
    spaceHandle : option string }.

(** ** Responses ([nludb.api.base]) *)

(** Modelled from the spec: the task handle of a long-running operation,
    which the caller polls. *)
Record AsyncTask : Type :=
  { taskId : string; taskStatus : string }.

Module Hit.
(** Modelled from the spec: a search hit, a [(score, value, metadata)]
    triple; [search] reads [hit.score] and [hit.value]. *)
Record t : Type := mk
  { score : Q;
    value : option string;
    metadata : Value }.
End Hit.

(** Modelled from the spec: an element of [IndexSearchResponse.hits], which
    is a hit for a single query and, for a batch, the hit list of one query
    ("one ordered hit-list per input query"). *)
Inductive HitEntry : Type :=
| OneHit (h : Hit.t)
| HitList (l : list Hit.t).

(** Modelled from the spec: the body of a response, decoded into the shape
    the caller expects: an undecoded JSON object when no shape is given (the
    [res.data.get] of [create]), the hits of a search, a sequence of items or
    of snapshot ids, or any other shape, of which the handle reads nothing. *)
Inductive Data : Type :=
| Raw (d : gmap string Value)
| Search (hits : list HitEntry)
| Items (items : list IndexItem.t)
| Snapshots (ids : list string)
| Ack (c : Cls.t).

(** Modelled from the spec: [NludbResponse], the answer of [post]; the
    methods read its [data], an asynchronous call fills its [task]. *)
Record Response : Type :=
  { task : option AsyncTask; data : option Data }.

(** [pandas.DataFrame(rows, columns=...)] with two-column rows. *)
Record DataFrame : Type :=
  { columns : list string; rows : list (Q * option string) }.

(** What [search] hands back: the response wrapper, or a data frame. *)
Inductive Returned : Type :=
| RResponse (r : Response)
| RDataFrame (df : DataFrame).

(** ** The monad *)

Definition M (S A : Type) : Type := S -> (Exn + A) * S.

Global Instance M_ret {S} : MRet (M S) :=
  fun A a s => (inr a, s).

Global Instance M_bind {S} : MBind (M S) :=
  fun A B f m s =>
    match m s with
    | (inr a, s') => f a s'
    | (inl e, s') => (inl e, s')
    end.

Global Instance M_fmap {S} : FMap (M S) :=
  fun A B f m => x ← m; mret (f x).

Definition raise {S A} (e : Exn) : M S A :=
  fun s => (inl e, s).

(** [for x in l: ... f(x) ...], collecting the results. *)
Fixpoint for_each {S A B} (f : A -> M S B) (l : list A) : M S (list B) :=
  match l with
  | [] => mret []
  | x :: l' => y ← f x; ys ← for_each f l'; mret (y :: ys)
  end.

(** ** The transport collaborator and the handle *)

(** Modelled from the spec: [nludb.api.base.ApiBase], which is not among the
    sources, as far as the handle uses it (section 4.2): [post] either raises
    a [RemoteRequestError] or returns a response, and moves the remote service
    from one state to the next.  [W] is the type of those states. *)
Record ApiBase (W : Type) : Type :=
  { post : PostCall -> W -> (RemoteRequestError + Response) * W }.
Arguments post {W} _ _ _.

(** An instance of [EmbeddingIndex]: the three attributes [__init__] sets.
    [id] is whatever the service answered to [create], hence a [Value]. *)
Record EmbeddingIndex (W : Type) : Type :=
  { nludb : ApiBase W; name : string; id : Value }.
Arguments nludb {W} _.
Arguments name {W} _.
Arguments id {W} _.

(** The network: the state of the service and the calls issued so far. *)
Record Net (W : Type) : Type :=
  { server : W; wire : list PostCall }.
Arguments server {W} _.
Arguments wire {W} _.

(** The world of a method call: the object [self] and the network. *)
Record Heap (W : Type) : Type :=
  { this : EmbeddingIndex W; net : Net W }.
Arguments this {W} _.
Arguments net {W} _.

Section Client.
Context {W : Type}.

(** [json.dumps] of the Python standard library. *)
Variable json_dumps : Value -> string.

(** [api.post(...)]: one call on the wire; a failure of the transport is
    raised as it is. *)
Definition call (api : ApiBase W) (c : PostCall) : M (Net W) Response :=
  fun n =>
    let (r, w') := post api c (server n) in
    (match r with
     | inl e => inl (Remote e)
     | inr res => inr res
     end,
     {| server := w'; wire := wire n ++ [c] |}).

(** Run a network action from inside a method. *)
Definition on_net {A} (m : M (Net W) A) : M (Heap W) A :=
  fun h =>
    let (r, n') := m (net h) in
    (r, {| this := this h; net := n' |}).

(** Read [self]. *)
Definition self : M (Heap W) (EmbeddingIndex W) :=
  fun h => (inr (this h), h).

(** Modelled from the spec: [metadata_to_str] of [nludb.types.base], which
    is not among the sources.  Structured metadata (mapping or sequence) is
    serialized to a string encoding, anything else is passed as it is. *)
Definition metadata_to_str (metadata : Value) : Value :=
  if is_structured metadata then VStr (json_dumps metadata) else metadata.

(** Modelled from the spec: [IndexItem.clone_for_insert] of
    [nludb.types.embedding_index], which is not among the sources.  A copy of
    the item whose metadata, when structured, is serialized to a string. *)
Definition clone_for_insert (item : IndexItem.t) : IndexItem.t :=
  IndexItem.mk
    (IndexItem.value item) (IndexItem.fileId item) (IndexItem.blockId item)
    (IndexItem.spanId item) (IndexItem.externalId item)
    (IndexItem.externalType item)
    (if is_structured (IndexItem.metadata item)
     then VStr (json_dumps (IndexItem.metadata item))
     else IndexItem.metadata item).

(** An element of the [items] argument of [insert_many]:
    [Union[IndexItem, str]]. *)
Inductive ItemOrStr : Type :=
| AStr (s : string)
| AnItem (item : IndexItem.t).

(** The [query] argument of [search]: [Union[str, List[str]]]. *)
Inductive Query : Type :=
| QStr (q : string)
| QList (qs : list string).

(** *** The methods *)

Definition insert_file
    (fileId : string) (blockType externalId externalType : option string)
    (metadata : Value) (reindex : bool)
    (spaceId spaceHandle : option string) : M (Heap W) Response :=
  s ← self;
  let metadata :=
    if is_structured metadata then VStr (json_dumps metadata) else metadata in
  let req :=
    IndexInsertRequest.mk (id s) None None (Some fileId) blockType
      externalId externalType metadata reindex in
  on_net (call (nludb s)
    {| route := "embedding-index/insert";
       payload := ReqInsert req;
       expect := Some Cls.IndexInsertResponse;
       asynchronous := false;
       spaceId := spaceId;
       spaceHandle := spaceHandle |}).

(** The loop of [insert_many]: a plain string becomes an item. *)
Definition normalize (item : ItemOrStr) : IndexItem.t :=
  match item with
  | AStr s => IndexItem.of_value s
  | AnItem i => i
  end.

Definition insert_many
    (items : list ItemOrStr) (reindex : bool)
    (spaceId spaceHandle : option string) : M (Heap W) Response :=
  s ← self;
  let newItems := map normalize items in
  let req :=
    IndexInsertRequest.mk (id s) None
      (Some (map clone_for_insert newItems))
      None None None None VNone reindex in
  on_net (call (nludb s)
    {| route := "embedding-index/insert";
       payload := ReqInsert req;
       expect := Some Cls.IndexInsertResponse;
       asynchronous := false;
       spaceId := spaceId;
       spaceHandle := spaceHandle |}).

Definition insert
    (value : string) (externalId externalType : option string)
    (metadata : Value) (reindex : bool)
    (spaceId spaceHandle : option string) : M (Heap W) Response :=
  s ← self;
  let req :=
    IndexInsertRequest.mk (id s) (Some value) None None None
      externalId externalType (metadata_to_str metadata) reindex in
  on_net (call (nludb s)
    {| route := "embedding-index/insert";
       payload := ReqInsert req;
       expect := Some Cls.IndexInsertResponse;
       asynchronous := false;
       spaceId := spaceId;
       spaceHandle := spaceHandle |}).

Definition embed (spaceId spaceHandle : option string) : M (Heap W) Response :=
  s ← self;
  let req := IndexEmbedRequest.mk (id s) in
  on_net (call (nludb s)
    {| route := "embedding-index/embed";
       payload := ReqEmbed req;
       expect := Some Cls.IndexEmbedRequest;
       asynchronous := true;
       spaceId := spaceId;
       spaceHandle := spaceHandle |}).

Definition create_snapshot
    (spaceId spaceHandle : option string) : M (Heap W) Response :=
  s ← self;
  let req := IndexSnapshotRequest.mk (id s) in
  on_net (call (nludb s)
    {| route := "embedding-index/snapshot/create";
       payload := ReqSnapshot req;
       expect := Some Cls.IndexSnapshotRequest;
       asynchronous := true;
       spaceId := spaceId;
       spaceHandle := spaceHandle |}).

Definition list_snapshots
    (spaceId spaceHandle : option string) : M (Heap W) Response :=
  s ← self;
  let req := ListSnapshotsRequest.mk (id s) in
  on_net (call (nludb s)
    {| route := "embedding-index/snapshot/list";
       payload := ReqListSnapshots req;
       expect := Some Cls.ListSnapshotsResponse;
       asynchronous := false;
       spaceId := spaceId;
       spaceHandle := spaceHandle |}).

Definition list_items
    (fileId blockId spanId : option string)
    (spaceId spaceHandle : option string) : M (Heap W) Response :=
  s ← self;
  let req := ListItemsRequest.mk (id s) fileId blockId spanId in
  on_net (call (nludb s)
    {| route := "embedding-index/listItems";
       payload := ReqListItems req;
       expect := Some Cls.ListItemsResponse;
       asynchronous := false;
       spaceId := spaceId;
       spaceHandle := spaceHandle |}).

Definition delete_snapshot
    (snapshot_id : string)
    (spaceId spaceHandle : option string) : M (Heap W) Response :=
  s ← self;
  let req := DeleteSnapshotsRequest.mk snapshot_id in
  on_net (call (nludb s)
    {| route := "embedding-index/snapshot/delete";
       payload := ReqDeleteSnapshots req;
       expect := Some Cls.DeleteSnapshotsResponse;
       asynchronous := false;
       spaceId := spaceId;
       spaceHandle := spaceHandle |}).

Definition delete (spaceId spaceHandle : option string) : M (Heap W) Response :=
  s ← self;
  let req := IndexDeleteRequest.mk (id s) in
  on_net (call (nludb s)
    {| route := "embedding-index/delete";
       payload := ReqDelete req;
       expect := Some Cls.IndexDeleteResponse;
       asynchronous := false;
       spaceId := spaceId;
       spaceHandle := spaceHandle |}).

(** [ret.data.hits]: only a decoded search response has the attribute. *)
Definition data_hits {S} (ret : Response) : M S (list HitEntry) :=
  match data ret with
  | None => raise (AttributeError "hits")
  | Some (Search hits) => mret hits
  | Some _ => raise (AttributeError "hits")
  end.

(** [(hit.score, hit.value)]: a hit has both attributes, a list has not. *)
Definition score_value {S} (hit : HitEntry) : M S (Q * option string) :=
  match hit with
  | OneHit h => mret (Hit.score h, Hit.value h)
  | HitList _ => raise (AttributeError "score")
  end.

(** [import pandas as pd] is taken to succeed. *)
Definition search
    (query : Query) (k : Z) (includeMetadata : bool) (pd : Value)
    (spaceId spaceHandle : option string) : M (Heap W) Returned :=
  s ← self;
  let req :=
    match query with
    | QList qs => IndexSearchRequest.mk (id s) None (Some qs) k includeMetadata
    | QStr q => IndexSearchRequest.mk (id s) (Some q) None k includeMetadata
    end in
  ret ← on_net (call (nludb s)
    {| route := "embedding-index/search";
       payload := ReqSearch req;
       expect := Some Cls.IndexSearchResponse;
       asynchronous := false;
       spaceId := spaceId;
       spaceHandle := spaceHandle |});
  if is_False pd then mret (RResponse ret)
  else
    hits ← data_hits ret;
    rows ← for_each score_value hits;
    mret (RDataFrame {| columns := ["Score"; "Value"]; rows := rows |}).

(** [res.data.get("id", None)]: [res.data] is the undecoded JSON object,
    since [create] passes no [expect]. *)
Definition data_get {S} (res : Response) (key : string) (dflt : Value)
    : M S Value :=
  match data res with
  | Some (Raw d) => mret (default dflt (d !! key))
  | _ => raise (AttributeError "get")
  end.

(** The static method [create]: there is no [self] yet. *)
Definition create
    (nludb : ApiBase W) (name model : string) (upsert : bool)
    (externalId externalType : option string) (metadata : Value)
    (spaceId spaceHandle : option string) : M (Net W) (EmbeddingIndex W) :=
  let req :=
    IndexCreateRequest.mk name model upsert externalId externalType metadata in
  res ← call nludb
    {| route := "embedding-index/create";
       payload := ReqCreate req;
       expect := None;
       asynchronous := false;
       spaceId := spaceId;
       spaceHandle := spaceHandle |};
  i ← data_get res "id" VNone;
  mret {| nludb := nludb; name := IndexCreateRequest.name req; id := i |}.

End Client.

(** ** The operations of a handle, as data *)

(** A method of [EmbeddingIndex] together with its own arguments (the two
    workspace selectors, which every method takes, are passed aside). *)
Inductive Operation : Type :=
| OpInsertFile (fileId : string) (blockType externalId externalType : option string)
    (metadata : Value) (reindex : bool)
| OpInsertMany (items : list ItemOrStr) (reindex : bool)
| OpInsert (value : string) (externalId externalType : option string)
    (metadata : Value) (reindex : bool)
| OpEmbed
| OpCreateSnapshot
| OpListSnapshots
| OpListItems (fileId blockId spanId : option string)
| OpDeleteSnapshot (snapshot_id : string)
| OpDelete
| OpSearch (query : Query) (k : Z) (includeMetadata : bool) (pd : Value).

Section Invoke.
Context {W : Type}.
Variable json_dumps : Value -> string.

(** Call the method [op] names on [self]. *)
Definition invoke (op : Operation) (spaceId spaceHandle : option string)
    : M (Heap W) Returned :=
  match op with
  | OpInsertFile f bt ei et md re =>
      RResponse <$> insert_file json_dumps f bt ei et md re spaceId spaceHandle
  | OpInsertMany items re =>
      RResponse <$> insert_many json_dumps items re spaceId spaceHandle
  | OpInsert v ei et md re =>
      RResponse <$> insert json_dumps v ei et md re spaceId spaceHandle
  | OpEmbed => RResponse <$> embed spaceId spaceHandle
  | OpCreateSnapshot => RResponse <$> create_snapshot spaceId spaceHandle
  | OpListSnapshots => RResponse <$> list_snapshots spaceId spaceHandle
  | OpListItems f b sp => RResponse <$> list_items f b sp spaceId spaceHandle
  | OpDeleteSnapshot sid => RResponse <$> delete_snapshot sid spaceId spaceHandle
  | OpDelete => RResponse <$> delete spaceId spaceHandle
  | OpSearch q k im pd => search q k im pd spaceId spaceHandle
  end.

(** Whether the request of the operation names the index of the handle:
    every request is built from [self.id], except the one of
    [delete_snapshot], which holds the snapshot id alone. *)
Definition addresses_index (op : Operation) : bool :=
  match op with
  | OpDeleteSnapshot _ => false
  | _ => true
  end.

End Invoke.

(** ** Observing a run *)

(** A transport failure, as the caller of a method sees it. *)
Definition raised (r : RemoteRequestError + Response) : Exn + Response :=
  match r with
  | inl e => inl (Remote e)
  | inr res => inr res
  end.

(** The heap once [self.nludb.post] has been called with [c]. *)
Definition after_call {W} (h : Heap W) (c : PostCall) : Heap W :=
  {| this := this h;
     net := {| server := snd (post (nludb (this h)) c (server (net h)));
               wire := wire (net h) ++ [c] |} |}.

(** The index a request names, when it names one: every request class has
    an [indexId] field, except [DeleteSnapshotsRequest] and
    [IndexCreateRequest]. *)
Definition target (r : Request) : option Value :=
  match r with
  | ReqInsert r => Some (IndexInsertRequest.indexId r)
  | ReqEmbed r => Some (IndexEmbedRequest.indexId r)
  | ReqSnapshot r => Some (IndexSnapshotRequest.indexId r)
  | ReqListSnapshots r => Some (ListSnapshotsRequest.indexId r)
  | ReqListItems r => Some (ListItemsRequest.indexId r)
  | ReqDeleteSnapshots _ => None
  | ReqDelete r => Some (IndexDeleteRequest.indexId r)
  | ReqSearch r => Some (IndexSearchRequest.indexId r)
  | ReqCreate _ => None
  end.

(** The call a run has just put on the wire: the last one of the trace. *)
Definition last_call {W} (h : Heap W) : option PostCall :=
  last (wire (net h)).

(** ** A canned collaborator

    The simplest double of the transport: it answers every call the same
    way and has no state. *)
Definition canned (answer : RemoteRequestError + Response) : ApiBase unit :=
  {| post := fun _ w => (answer, w) |}.

(** A heap holding a fresh handle and an unused network. *)
Definition fresh_heap {W} (api : ApiBase W) (name : string) (i : Value) (w : W)
    : Heap W :=
  {| this := {| nludb := api; name := name; id := i |};
     net := {| server := w; wire := [] |} |}.

(** The result of a call is a "not found" failure. *)
Definition surfaces_not_found {A} (r : Exn + A) : Prop :=
  exists e, r = inl (Remote e) /\ status e = 404.

(** Running operations one after the other through the same handle; a
    failure of one does not stop the caller from issuing the next. *)
Fixpoint run_all {W} (json_dumps : Value -> string)
    (ops : list (Operation * option string * option string)) (h : Heap W)
    : list (Exn + Returned) * Heap W :=
  match ops with
  | [] => ([], h)
  | (op, sid, sh) :: ops' =>
      let (r, h') := invoke json_dumps op sid sh h in
      let (rs, h'') := run_all json_dumps ops' h' in
      (r :: rs, h'')
  end.

(** ** A mock of the collaborator

    The remote service is not part of the client.  To state what the spec
    says of a handle "assuming server fidelity", the collaborator is mocked:
    a small service that keeps indices, their items and their snapshots, and
    answers each route as section 4.1 and section 6 of the spec describe. *)
Module Mock.

Record Index : Type :=
  { ix_name : string;
    ix_model : string;
    ix_items : list IndexItem.t }.

(** The state of the mocked service: the live indices by id, the snapshots
    (snapshot id to index id) and the counter ids are drawn from. *)
Record Server : Type :=
  { indices : gmap string Index;
    snapshots : gmap string string;
    counter : nat }.

Definition not_found : RemoteRequestError :=
  {| status := 404; message := "not found" |}.

Definition bad_request : RemoteRequestError :=
  {| status := 400; message := "bad request" |}.

(** The route each request class is served on (spec, section 6). *)
Definition route_of (r : Request) : string :=
  match r with
  | ReqInsert _ => "embedding-index/insert"
  | ReqEmbed _ => "embedding-index/embed"
  | ReqSnapshot _ => "embedding-index/snapshot/create"
  | ReqListSnapshots _ => "embedding-index/snapshot/list"
  | ReqListItems _ => "embedding-index/listItems"
  | ReqDeleteSnapshots _ => "embedding-index/snapshot/delete"
  | ReqDelete _ => "embedding-index/delete"
  | ReqSearch _ => "embedding-index/search"
  | ReqCreate _ => "embedding-index/create"
  end.

(** The index an id names, if it is live.  Ids are strings. *)
Definition find_index (i : Value) (sv : Server) : option (string * Index) :=
  match i with
  | VStr s => match indices sv !! s with
              | Some ix => Some (s, ix)
              | None => None
              end
  | _ => None
  end.

(** The items an insert request stands for: the batch, or the one item made
    of the single value, the file reference, the external identity and the
    metadata. *)
Definition items_of (r : IndexInsertRequest.t) : list IndexItem.t :=
  match IndexInsertRequest.items r with
  | Some l => l
  | None =>
      [ IndexItem.mk
          (IndexInsertRequest.value r) (IndexInsertRequest.fileId r)
          None None
          (IndexInsertRequest.externalId r)
          (IndexInsertRequest.externalType r)
          (IndexInsertRequest.metadata r) ]
  end.

(** An absent filter matches everything; a present one, the equal id. *)
Definition keeps (filter field : option string) : bool :=
  match filter with
  | None => true
  | Some f => bool_decide (field = Some f)
  end.

(** The filter of [listItems]: a conjunction over the provided ids. *)
Definition item_matches (r : ListItemsRequest.t) (it : IndexItem.t) : bool :=
  keeps (ListItemsRequest.fileId r) (IndexItem.fileId it)
  && keeps (ListItemsRequest.blockId r) (IndexItem.blockId it)
  && keeps (ListItemsRequest.spanId r) (IndexItem.spanId it).

(** The body and task of a successful answer: the body is decoded into the
    shape the caller expects; an asynchronous call gets a task. *)
Definition reply (c : PostCall) (d : option Data) : Response :=
  {| task := if asynchronous c
             then Some {| taskId := "task"; taskStatus := "waiting" |}
             else None;
     data := d |}.

Definition ack (c : PostCall) : Response :=
  reply c (Ack <$> expect c).

(** Hits are ranked by non-increasing score. *)
Definition by_score (a b : Hit.t) : Prop :=
  (Hit.score b <= Hit.score a)%Q.

Global Instance by_score_dec : RelDecision by_score :=
  fun a b =>
    Z.le_dec (Qnum (Hit.score b) * QDen (Hit.score a))
             (Qnum (Hit.score a) * QDen (Hit.score b)).

Section Service.

(** The relevance of an item's text to a query: the embedding model, which
    the mock does not look into. *)
Variable similarity : string -> string -> Q.

Definition hit_of (q : string) (includeMetadata : bool) (it : IndexItem.t)
    : Hit.t :=
  Hit.mk (similarity q (default "" (IndexItem.value it)))
    (IndexItem.value it)
    (if includeMetadata then IndexItem.metadata it else VNone).

(** The top [k] items for one query, best first. *)
Definition rank (q : string) (k : Z) (includeMetadata : bool)
    (items : list IndexItem.t) : list Hit.t :=
  take (Z.to_nat k) (merge_sort by_score (hit_of q includeMetadata <$> items)).

(** An index named [name], if there is one. *)
Definition find_name (name : string) (sv : Server) : option string :=
  (fun p => fst (snd p)) <$>
    list_find (fun p => ix_name (snd p) = name) (map_to_list (indices sv)).

(** Modelled from the spec: [ApiBase.post] of [nludb.api.base] and the
    service behind it, neither of which is among the sources.  Each route
    does what sections 4.1 and 6 of the spec say: an operation on an index
    that is not live fails with "not found"; [delete] removes the index and
    all associated data; [listItems] filters by the conjunction of the
    provided ids; [search] answers a single query with its top [k] hits by
    non-increasing score and a batch with one such hit list per query, in
    input order; long-running routes answer with a task.  The workspace
    selectors are accepted and not interpreted: the mock serves a single
    workspace. *)
Definition post (c : PostCall) (sv : Server)
    : (RemoteRequestError + Response) * Server :=
  if negb (String.eqb (route c) (route_of (payload c)))
  then (inl not_found, sv)
  else
  match payload c with
  | ReqCreate r =>
      match (if IndexCreateRequest.upsert r
             then find_name (IndexCreateRequest.name r) sv else None) with
      | Some i => (inr (reply c (Some (Raw {[ "id" := VStr i ]}))), sv)
      | None =>
          let n := S (counter sv) in
          let i := "idx_" +:+ pretty n in
          let ix := {| ix_name := IndexCreateRequest.name r;
                       ix_model := IndexCreateRequest.model r;
                       ix_items := [] |} in
          (inr (reply c (Some (Raw {[ "id" := VStr i ]}))),
           {| indices := <[ i := ix ]> (indices sv);
              snapshots := snapshots sv;
              counter := n |})
      end
  | ReqInsert r =>
      match find_index (IndexInsertRequest.indexId r) sv with
      | None => (inl not_found, sv)
      | Some (i, ix) =>
          let ix' := {| ix_name := ix_name ix;
                        ix_model := ix_model ix;
                        ix_items := ix_items ix ++ items_of r |} in
          (inr (ack c),
           {| indices := <[ i := ix' ]> (indices sv);
              snapshots := snapshots sv;
              counter := counter sv |})
      end
  | ReqEmbed r =>
      match find_index (IndexEmbedRequest.indexId r) sv with
      | None => (inl not_found, sv)
      | Some _ => (inr (ack c), sv)
      end
  | ReqSnapshot r =>
      match find_index (IndexSnapshotRequest.indexId r) sv with
      | None => (inl not_found, sv)
      | Some (i, _) =>
          let n := S (counter sv) in
          (inr (ack c),
           {| indices := indices sv;
              snapshots := <[ "snap_" +:+ pretty n := i ]> (snapshots sv);
              counter := n |})
      end
  | ReqListSnapshots r =>
      match find_index (ListSnapshotsRequest.indexId r) sv with
      | None => (inl not_found, sv)
      | Some (i, _) =>
          let ids := fst <$> map_to_list (filter (fun p => snd p = i) (snapshots sv)) in
          (inr (reply c (Some (Snapshots ids))), sv)
      end
  | ReqListItems r =>
      match find_index (ListItemsRequest.indexId r) sv with
      | None => (inl not_found, sv)
      | Some (_, ix) =>
          (inr (reply c (Some (Items (List.filter (item_matches r) (ix_items ix))))),
           sv)
      end
  | ReqDeleteSnapshots r =>
      match snapshots sv !! DeleteSnapshotsRequest.snapshotId r with
      | None => (inl not_found, sv)
      | Some _ =>
          (inr (ack c),
           {| indices := indices sv;
              snapshots := base.delete (DeleteSnapshotsRequest.snapshotId r) (snapshots sv);
              counter := counter sv |})
      end
  | ReqDelete r =>
      match find_index (IndexDeleteRequest.indexId r) sv with
      | None => (inl not_found, sv)
      | Some (i, _) =>
          (inr (ack c),
           {| indices := base.delete i (indices sv);
              snapshots := filter (fun p => snd p ≠ i) (snapshots sv);
              counter := counter sv |})
      end
  | ReqSearch r =>
      match find_index (IndexSearchRequest.indexId r) sv with
      | None => (inl not_found, sv)
      | Some (_, ix) =>
          let top q :=
            rank q (IndexSearchRequest.k r)
              (IndexSearchRequest.includeMetadata r) (ix_items ix) in
          match IndexSearchRequest.query r, IndexSearchRequest.queries r with
          | Some q, _ => (inr (reply c (Some (Search (OneHit <$> top q)))), sv)
          | None, Some qs =>
              (inr (reply c (Some (Search ((fun q => HitList (top q)) <$> qs)))), sv)
          | None, None => (inl bad_request, sv)
          end
      end
  end.

(** The mocked collaborator object. *)
Definition api : ApiBase Server := Build_ApiBase Server post.

End Service.
End Mock.

(** A handle on the mock whose id is the string [i]. *)
Definition mock_heap (similarity : string -> string -> Q) (nm i : string)
    (n : Net Mock.Server) : Heap Mock.Server :=
  {| this := {| nludb := Mock.api similarity; name := nm; id := VStr i |};
     net := n |}.

(** The index [i] is gone from the service, with the snapshots it had in the
    earlier state [sv0]. *)
Definition gone (i : string) (sv0 sv : Mock.Server) : Prop :=
  Mock.indices sv !! i = None
  /\ forall s, Mock.snapshots sv0 !! s = Some i -> Mock.snapshots sv !! s = None.

(** ** Fixtures *)

(** Stand-ins for what the development leaves open, used to run the code on
    concrete inputs. *)
Module Fixture.

(** A relevance function: 1 on the very text, 0 elsewhere. *)
Definition similarity (q v : string) : Q :=
  if String.eqb q v then 1%Q else 0%Q.

(** A serializer that does not look at its argument. *)
Definition json_dumps (v : Value) : string := "<json>".

Definition docs : Mock.Index :=
  {| Mock.ix_name := "docs";
     Mock.ix_model := "text-embedding";
     Mock.ix_items := [] |}.

(** One live index, [idx_1], without items or snapshots. *)
Definition one_index : Mock.Server :=
  {| Mock.indices := {[ "idx_1" := docs ]};
     Mock.snapshots := ∅;
     Mock.counter := 1 |}.

(** Two live indices; [idx_1] holds three items and the snapshot [snap_1],
    [idx_2] holds the snapshot [snap_2]. *)
Definition stocked : Mock.Server :=
  {| Mock.indices :=
       {[ "idx_1" :=
            {| Mock.ix_name := "docs";
               Mock.ix_model := "text-embedding";
               Mock.ix_items :=
                 [ IndexItem.mk (Some "a") (Some "f1") (Some "b1") None None None
                     (VStr "m");
                   IndexItem.mk (Some "b") (Some "f1") (Some "b2") None None None
                     VNone;
                   IndexItem.mk (Some "c") (Some "f2") (Some "b1") None None None
                     VNone ] |};
          "idx_2" := docs ]};
     Mock.snapshots := {[ "snap_1" := "idx_1"; "snap_2" := "idx_2" ]};
     Mock.counter := 4 |}.

(** A handle on [idx_1] of [stocked], before any call. *)
Definition stocked_heap : Heap Mock.Server :=
  mock_heap similarity "docs" "idx_1" {| server := stocked; wire := [] |}.

End Fixture.

(** A handle, of id [idx_1], on a canned collaborator. *)
Definition canned_heap (answer : RemoteRequestError + Response) : Heap unit :=
  fresh_heap (canned answer) "docs" (VStr "idx_1") tt.

(** * Properties *)

(** ** The ranking order of the mock *)

Global Instance by_score_total : Total Mock.by_score.
Proof. intros a b. unfold Mock.by_score, Qle. lia. Qed.

Global Instance by_score_trans : Transitive Mock.by_score.
Proof.
  intros a b c Hab Hbc. unfold Mock.by_score in *. eapply Qle_trans; eauto.
Qed.

(** ** How a method runs *)

Section Running.
Context {W : Type}.
Variable json_dumps : Value -> string.

Lemma on_net_call (h : Heap W) (c : PostCall) :
  on_net (call (nludb (this h)) c) h =
  (raised (fst (post (nludb (this h)) c (server (net h)))), after_call h c).
Proof.
  unfold on_net, call, after_call, raised.
  destruct (post (nludb (this h)) c (server (net h))) as [[e | res] w'];
    reflexivity.
Qed.

(** Every method but [search] has this shape: read [self], build the call,
    post it, return what comes back. *)
Lemma method_call (f : EmbeddingIndex W -> PostCall) (h : Heap W) :
  (s ← self; on_net (call (nludb s) (f s))) h =
  (raised (fst (post (nludb (this h)) (f (this h)) (server (net h)))),
   after_call h (f (this h))).
Proof. unfold mbind, M_bind, self. simpl. apply on_net_call. Qed.

Lemma fmap_run {S A B} (f : A -> B) (m : M S A) (s : S) :
  (f <$> m) s =
  (match fst (m s) with inl e => inl e | inr a => inr (f a) end, snd (m s)).
Proof.
  unfold fmap, M_fmap, mbind, M_bind, mret, M_ret.
  destruct (m s) as [[e | a] s']; reflexivity.
Qed.

(** Reading the hits of a response and pairing them up touch no state. *)
Lemma data_hits_state {S} (ret : Response) (s : S) :
  snd (data_hits ret s) = s.
Proof.
  unfold data_hits. destruct (data ret) as [[] |]; reflexivity.
Qed.

Lemma for_each_score_value_state {S} (hits : list HitEntry) (s : S) :
  snd (for_each score_value hits s) = s.
Proof.
  induction hits as [| [h | l] hits IH]; simpl; try reflexivity.
  unfold mbind, M_bind in *. simpl.
  destruct (for_each score_value hits s) as [[e | rows] s'];
    simpl in *; subst; reflexivity.
Qed.

(** On hits that are all single hits, the pairing succeeds. *)
Lemma for_each_score_value_hits {S} (hits : list Hit.t) (s : S) :
  for_each score_value (OneHit <$> hits) s =
  (inr ((fun h => (Hit.score h, Hit.value h)) <$> hits), s).
Proof.
  induction hits as [| h hits IH]; simpl; [reflexivity |].
  unfold mbind, M_bind in *. simpl. unfold fmap in IH. rewrite IH. reflexivity.
Qed.

(** If the pairing succeeds, every entry was a single hit. *)
Lemma for_each_score_value_inv {S} (entries : list HitEntry) (s s' : S) rows :
  for_each score_value entries s = (inr rows, s') ->
  exists hits, entries = OneHit <$> hits
    /\ rows = (fun h => (Hit.score h, Hit.value h)) <$> hits.
Proof.
  revert rows. induction entries as [| [h | l] entries IH]; intros rows; simpl.
  - intros [= <-]. exists []. split; reflexivity.
  - unfold mbind, M_bind. simpl.
    destruct (for_each score_value entries s) as [[e | rows'] s''] eqn:E;
      [discriminate |].
    intros [= <- <-]. destruct (IH rows' eq_refl) as (hits & -> & ->).
    exists (h :: hits). split; reflexivity.
  - unfold mbind, M_bind. simpl. discriminate.
Qed.

(** The pandas half of [search], after the response has arrived. *)
Lemma frame_state (ret : Response) (h : Heap W) :
  snd ((hits ← data_hits ret;
        rows ← for_each score_value hits;
        mret (RDataFrame {| columns := ["Score"; "Value"]; rows := rows |})) h) = h.
Proof.
  unfold mbind, M_bind, mret, M_ret.
  pose proof (data_hits_state ret h) as Hd.
  destruct (data_hits ret h) as [[e | hits] h1]; simpl in Hd; subst; [reflexivity |].
  pose proof (for_each_score_value_state hits h) as Hf.
  destruct (for_each score_value hits h) as [[e | rows] h2]; simpl in Hf; subst;
    reflexivity.
Qed.

Lemma search_run query k im pd sid sh (h : Heap W) :
  let c :=
    {| route := "embedding-index/search";
       payload := ReqSearch
         match query with
         | QList qs => IndexSearchRequest.mk (id (this h)) None (Some qs) k im
         | QStr q => IndexSearchRequest.mk (id (this h)) (Some q) None k im
         end;
       expect := Some Cls.IndexSearchResponse;
       asynchronous := false;
       spaceId := sid;
       spaceHandle := sh |} in
  search query k im pd sid sh h =
  (match fst (post (nludb (this h)) c (server (net h))) with
   | inl e => inl (Remote e)
   | inr ret =>
       if is_False pd then inr (RResponse ret)
       else fst ((hits ← data_hits ret;
                  rows ← for_each score_value hits;
                  mret (RDataFrame {| columns := ["Score"; "Value"];
                                      rows := rows |})) (after_call h c))
   end,
   after_call h c).
Proof.
  intros c. unfold search.
  unfold mbind at 1, M_bind at 1, self at 1. cbn beta iota.
  unfold mbind at 1, M_bind at 1.
  rewrite on_net_call. fold c.
  destruct (fst (post (nludb (this h)) c (server (net h)))) as [e | ret];
    simpl; [reflexivity |].
  destruct (is_False pd); [reflexivity |].
  rewrite (surjective_pairing (_ (after_call h c))) at 1.
  rewrite frame_state. reflexivity.
Qed.

(** What every operation does: one call on the wire, whose failure is the
    failure of the operation. *)
Lemma invoke_call op sid sh (h : Heap W) :
  exists c,
    snd (invoke json_dumps op sid sh h) = after_call h c
    /\ (forall e, fst (post (nludb (this h)) c (server (net h))) = inl e ->
                  fst (invoke json_dumps op sid sh h) = inl (Remote e))
    /\ route c = Mock.route_of (payload c)
    /\ target (payload c) =
         (if addresses_index op then Some (id (this h)) else None)
    /\ (forall s, op = OpDeleteSnapshot s ->
          payload c = ReqDeleteSnapshots (DeleteSnapshotsRequest.mk s)).
Proof.
  destruct op as [f bt ei et md re | items re | v ei et md re | | | |
                    f b sp | snap | | query k im pd]; simpl;
    try (rewrite fmap_run;
         cbv beta delta [insert_file insert_many insert embed create_snapshot
                         list_snapshots list_items delete_snapshot delete];
         rewrite (method_call (fun s => _)); simpl;
         eexists; split; [reflexivity |];
         split; [intros e ->; reflexivity |];
         split; [reflexivity |];
         split; [reflexivity |];
         intros s; try discriminate; intros [= ->]; reflexivity).
  pose proof (search_run query k im pd sid sh h) as Hs.
  cbv zeta in Hs. rewrite Hs. simpl.
  eexists; split; [reflexivity |].
  split; [intros e ->; reflexivity |].
  split; [reflexivity |].
  split; [destruct query; reflexivity |].
  intros s; discriminate.
Qed.
End Running.

(** ** Metadata in the request body *)

Section Metadata.
Context {W : Type}.
Variable json_dumps : Value -> string.

(** [insert_file] serializes structured metadata before building the
    request. *)
Lemma insert_file_serializes f bt ei et md re sid sh (h : Heap W) :
  is_structured md = true ->
  wire (net (snd (insert_file json_dumps f bt ei et md re sid sh h))) =
  (wire (net h) ++
  [ {| route := "embedding-index/insert";
       payload := ReqInsert
         (IndexInsertRequest.mk (id (this h)) None None (Some f) bt ei et
            (VStr (json_dumps md)) re);
       expect := Some Cls.IndexInsertResponse;
       asynchronous := false;
       spaceId := sid;
       spaceHandle := sh |} ])%list.
Proof.
  intros Hs. unfold insert_file. rewrite (method_call (fun s => _)).
  simpl. rewrite Hs. reflexivity.
Qed.

(** [insert] serializes structured metadata through [metadata_to_str]. *)
Lemma insert_serializes v ei et md re sid sh (h : Heap W) :
  is_structured md = true ->
  wire (net (snd (insert json_dumps v ei et md re sid sh h))) =
  (wire (net h) ++
  [ {| route := "embedding-index/insert";
       payload := ReqInsert
         (IndexInsertRequest.mk (id (this h)) (Some v) None None None ei et
            (VStr (json_dumps md)) re);
       expect := Some Cls.IndexInsertResponse;
       asynchronous := false;
       spaceId := sid;
       spaceHandle := sh |} ])%list.
Proof.
  intros Hs. unfold insert. rewrite (method_call (fun s => _)).
  simpl. unfold metadata_to_str. rewrite Hs. reflexivity.
Qed.

(** How [create] runs: one call, then the handle is built from the
    undecoded answer. *)
Lemma create_run (api : ApiBase W) nm model upsert ei et md sid sh (n : Net W) :
  let c :=
    {| route := "embedding-index/create";
       payload := ReqCreate (IndexCreateRequest.mk nm model upsert ei et md);
       expect := None;
       asynchronous := false;
       spaceId := sid;
       spaceHandle := sh |} in
  create api nm model upsert ei et md sid sh n =
  (match fst (post api c (server n)) with
   | inl e => inl (Remote e)
   | inr res =>
       match data res with
       | Some (Raw d) =>
           inr {| nludb := api; name := nm; id := default VNone (d !! "id") |}
       | _ => inl (AttributeError "get")
       end
   end,
   {| server := snd (post api c (server n)); wire := wire n ++ [c] |}).
Proof.
  intros c. unfold create, call. fold c.
  unfold mbind, M_bind, mret, M_ret, data_get, raise.
  destruct (post api c (server n)) as [[e | res] w']; simpl; [reflexivity |].
  destruct (data res) as [[] |]; reflexivity.
Qed.

(** [create] puts its [metadata] argument in the request as it is. *)
Lemma create_metadata_verbatim (api : ApiBase W) nm model upsert ei et md sid sh
    (n : Net W) :
  payload <$> wire (snd (create api nm model upsert ei et md sid sh n)) =
  ((payload <$> wire n) ++
  [ ReqCreate (IndexCreateRequest.mk nm model upsert ei et md) ])%list.
Proof.
  pose proof (create_run api nm model upsert ei et md sid sh n) as Hc.
  cbv zeta in Hc. rewrite Hc. simpl. rewrite fmap_app. reflexivity.
Qed.

End Metadata.

(** C1 (violated by [create]).  The claim: every operation that sends a
    metadata field ([insert], [insert_file], [create]) puts the string
    serialization of structured metadata in the request body, never the
    structured value.  [insert_file] and [insert] do
    ([insert_file_serializes], [insert_serializes]); [create] does not: called
    with the mapping [{"k": 1}], the one request it posts carries that very
    mapping, a structured value. *)
Theorem create_posts_structured_metadata :
  let md := VDict [("k", VInt 1)] in
  let answer := {| task := None; data := Some (Raw {[ "id" := VStr "idx_1" ]}) |} in
  let n := {| server := tt; wire := [] |} in
  payload <$>
    wire (snd (create (canned (inr answer)) "docs" "text-embedding" true
                 None None md None None n)) =
  [ ReqCreate (IndexCreateRequest.mk "docs" "text-embedding" true None None md) ]
  /\ is_structured md = true.
Proof. split; reflexivity. Qed.

(** ** The asynchronous operations *)

(** C2 (violated).  The claim: [embed] and [create_snapshot] post with the
    asynchronous flag set, have the response decoded into [IndexEmbedResponse]
    and [IndexSnapshotResponse], and return the task handle.  The flag is set
    and the collaborator's answer is returned untouched, but the shape handed
    to the collaborator as [expect] is the request class of each operation,
    [IndexEmbedRequest] and [IndexSnapshotRequest], not the response class
    the signature declares. *)
Theorem embed_and_create_snapshot_expect_the_request_class
    {W : Type} (sid sh : option string) (h : Heap W) :
  let ce :=
    {| route := "embedding-index/embed";
       payload := ReqEmbed (IndexEmbedRequest.mk (id (this h)));
       expect := Some Cls.IndexEmbedRequest;
       asynchronous := true;
       spaceId := sid;
       spaceHandle := sh |} in
  let cs :=
    {| route := "embedding-index/snapshot/create";
       payload := ReqSnapshot (IndexSnapshotRequest.mk (id (this h)));
       expect := Some Cls.IndexSnapshotRequest;
       asynchronous := true;
       spaceId := sid;
       spaceHandle := sh |} in
  embed sid sh h =
    (raised (fst (post (nludb (this h)) ce (server (net h)))), after_call h ce)
  /\ create_snapshot sid sh h =
    (raised (fst (post (nludb (this h)) cs (server (net h)))), after_call h cs)
  /\ expect ce <> Some Cls.IndexEmbedResponse
  /\ expect cs <> Some Cls.IndexSnapshotResponse.
Proof.
  intros ce cs. repeat split.
  - unfold embed. apply (method_call (fun s => _)).
  - unfold create_snapshot. apply (method_call (fun s => _)).
  - discriminate.
  - discriminate.
Qed.

(** ** The handle [create] returns *)

(** C5.  Whenever [create] returns a handle, the collaborator answered the
    create request with an undecoded JSON object, the handle's [id] is the
    value under the key ["id"] of that answer ([None] when the key is
    missing), its [name] is the requested name, and it holds the collaborator
    it was created through. *)
Theorem create_returns_handle_with_server_id
    {W : Type} (api : ApiBase W) (nm model : string) (upsert : bool)
    (ei et : option string) (md : Value) (sid sh : option string)
    (n n' : Net W) (h : EmbeddingIndex W) :
  create api nm model upsert ei et md sid sh n = (inr h, n') ->
  exists res d,
    fst (post api
           {| route := "embedding-index/create";
              payload := ReqCreate (IndexCreateRequest.mk nm model upsert ei et md);
              expect := None;
              asynchronous := false;
              spaceId := sid;
              spaceHandle := sh |} (server n)) = inr res
    /\ data res = Some (Raw d)
    /\ id h = default VNone (d !! "id")
    /\ name h = nm
    /\ nludb h = api.
Proof.
  pose proof (create_run api nm model upsert ei et md sid sh n) as Hc.
  cbv zeta in Hc. rewrite Hc. clear Hc.
  destruct (fst (post api _ (server n))) as [e | res] eqn:Hp; [discriminate |].
  destruct (data res) as [[d | | | |] |] eqn:Hd; try discriminate.
  intros [= <- <-]. exists res, d. repeat split; try reflexivity; assumption.
Qed.

Lemma create_returns_handle_with_server_id_witness :
  let answer := {| task := None; data := Some (Raw {[ "id" := VStr "idx_1" ]}) |} in
  let n := {| server := tt; wire := [] |} in
  let h := {| nludb := canned (inr answer); name := "docs"; id := VStr "idx_1" |} in
  exists res d,
    fst (post (canned (inr answer))
           {| route := "embedding-index/create";
              payload := ReqCreate
                (IndexCreateRequest.mk "docs" "text-embedding" true None None VNone);
              expect := None;
              asynchronous := false;
              spaceId := None;
              spaceHandle := None |} (server n)) = inr res
    /\ data res = Some (Raw d)
    /\ id h = default VNone (d !! "id")
    /\ name h = "docs"
    /\ nludb h = canned (inr answer).
Proof.
  intros answer n h.
  apply (create_returns_handle_with_server_id
           (canned (inr answer)) "docs" "text-embedding" true None None VNone
           None None n
           {| server := tt;
              wire := [ {| route := "embedding-index/create";
                           payload := ReqCreate
                             (IndexCreateRequest.mk "docs" "text-embedding" true
                                None None VNone);
                           expect := None;
                           asynchronous := false;
                           spaceId := None;
                           spaceHandle := None |} ] |}
           h).
  reflexivity.
Defined.

(** ** Failures and the state of the handle *)

(** C7.  Every method issues exactly one call to the collaborator, and when
    that call fails with a [RemoteRequestError] the method fails with the
    same error, the remote state being what the collaborator left; the same
    holds of the static [create].  Nothing is caught, changed or retried. *)
Theorem transport_failure_propagates
    {W : Type} (json_dumps : Value -> string) :
  (forall (op : Operation) (sid sh : option string) (h : Heap W),
     exists c,
       snd (invoke json_dumps op sid sh h) = after_call h c
       /\ forall e,
            fst (post (nludb (this h)) c (server (net h))) = inl e ->
            fst (invoke json_dumps op sid sh h) = inl (Remote e))
  /\ (forall (api : ApiBase W) (nm model : string) (upsert : bool)
        (ei et : option string) (md : Value) (sid sh : option string)
        (n : Net W),
        exists c,
          snd (create api nm model upsert ei et md sid sh n) =
            {| server := snd (post api c (server n));
               wire := (wire n ++ [c])%list |}
          /\ forall e,
               fst (post api c (server n)) = inl e ->
               fst (create api nm model upsert ei et md sid sh n) =
                 inl (Remote e)).
Proof.
  split.
  - intros op sid sh h.
    destruct (invoke_call json_dumps op sid sh h) as (c & Hs & Hf & _).
    exists c. split; assumption.
  - intros api nm model upsert ei et md sid sh n.
    pose proof (create_run api nm model upsert ei et md sid sh n) as Hc.
    cbv zeta in Hc. rewrite Hc. eexists. split; [reflexivity |].
    simpl. intros e ->. reflexivity.
Qed.

(** A collaborator that is down: [search] fails with its error, after one
    call. *)
Lemma transport_failure_propagates_witness :
  let e := {| status := 503; message := "unavailable" |} in
  let h := fresh_heap (canned (inl e)) "docs" (VStr "idx_1") tt in
  exists c,
    snd (invoke (fun _ => "") (OpSearch (QStr "a") 1 false (VBool true)) None None h)
      = after_call h c
    /\ forall e',
         fst (post (nludb (this h)) c (server (net h))) = inl e' ->
         fst (invoke (fun _ => "") (OpSearch (QStr "a") 1 false (VBool true))
                None None h) = inl (Remote e').
Proof.
  intros e h.
  exact (proj1 (transport_failure_propagates (fun _ => ""))
           (OpSearch (QStr "a") 1 false (VBool true)) None None h).
Defined.

(** C9.  No method assigns to [self]: after any call of any method, failed
    or not, the handle holds the same collaborator, id and name. *)
Theorem handle_unchanged
    {W : Type} (json_dumps : Value -> string)
    (op : Operation) (sid sh : option string) (h : Heap W) :
  let h' := snd (invoke json_dumps op sid sh h) in
  this h' = this h
  /\ nludb (this h') = nludb (this h)
  /\ id (this h') = id (this h)
  /\ name (this h') = name (this h).
Proof.
  destruct (invoke_call json_dumps op sid sh h) as (c & Hs & _).
  cbv zeta. rewrite Hs. repeat split; reflexivity.
Qed.

(** ** The data frame of [search] *)

Lemma truthy_not_False (pd : Value) : truthy pd = true -> is_False pd = false.
Proof. destruct pd as [| [] | | | | |]; simpl; congruence. Qed.

(** C10.  With a truthy [pd], [search] returns a value exactly when the
    collaborator answers with a decoded search response whose [hits] are
    single hits, and the value is then the data frame with the columns
    [Score] and [Value] and one row [(score, value)] per hit, in order:
    neither the metadata of a hit nor the response wrapper and its task are
    in it. *)
Theorem search_pd_returns_score_value_frame
    {W : Type} (query : Query) (k : Z) (includeMetadata : bool) (pd : Value)
    (sid sh : option string) (h : Heap W) (v : Returned) :
  truthy pd = true ->
  fst (search query k includeMetadata pd sid sh h) = inr v
  <->
  exists ret hits,
    fst (post (nludb (this h))
           {| route := "embedding-index/search";
              payload := ReqSearch
                match query with
                | QList qs =>
                    IndexSearchRequest.mk (id (this h)) None (Some qs) k
                      includeMetadata
                | QStr q =>
                    IndexSearchRequest.mk (id (this h)) (Some q) None k
                      includeMetadata
                end;
              expect := Some Cls.IndexSearchResponse;
              asynchronous := false;
              spaceId := sid;
              spaceHandle := sh |} (server (net h))) = inr ret
    /\ data ret = Some (Search (OneHit <$> hits))
    /\ v = RDataFrame
             {| columns := ["Score"; "Value"];
                rows := (fun x => (Hit.score x, Hit.value x)) <$> hits |}.
Proof.
  intros Hpd. apply truthy_not_False in Hpd.
  pose proof (search_run query k includeMetadata pd sid sh h) as Hs.
  cbv zeta in Hs. rewrite Hs. clear Hs. simpl. rewrite Hpd.
  set (c := {| route := "embedding-index/search" |}).
  destruct (fst (post (nludb (this h)) c (server (net h)))) as [e | ret].
  { split; [discriminate | intros (? & ? & [=] & _)]. }
  unfold mbind at 1, M_bind at 1, data_hits.
  destruct (data ret) as [[d | entries | | |] |] eqn:Hd; simpl;
    try (split; [discriminate | intros (? & ? & [= <-] & Hd' & _); congruence]).
  unfold mbind, M_bind.
  destruct (for_each score_value entries (after_call h c))
    as [[e | rows] h1] eqn:Hf; simpl.
  - split; [discriminate |].
    intros (ret' & hits & [= <-] & Hd' & _).
    rewrite Hd in Hd'. injection Hd' as ->.
    rewrite for_each_score_value_hits in Hf. discriminate.
  - apply for_each_score_value_inv in Hf as (hits & -> & ->).
    split.
    + intros [= <-]. exists ret, hits. repeat split; assumption.
    + intros (ret' & hits' & [= <-] & Hd' & ->).
      rewrite Hd in Hd'. injection Hd' as Hd'.
      assert (Inj (=) (=) OneHit) by (intros x y [= ->]; reflexivity).
      apply (inj (fmap OneHit)) in Hd'. subst. reflexivity.
Qed.

(** The hits carry metadata, the frame does not. *)
Lemma search_pd_returns_score_value_frame_witness :
  let hits := [ Hit.mk 0.9 (Some "a") (VStr "m1"); Hit.mk 0.4 (Some "b") (VInt 7) ] in
  let ret := {| task := None; data := Some (Search (OneHit <$> hits)) |} in
  let h := fresh_heap (canned (inr ret)) "docs" (VStr "idx_1") tt in
  fst (search (QStr "a") 2 true (VBool true) None None h) =
  inr (RDataFrame {| columns := ["Score"; "Value"];
                     rows := [ (0.9%Q, Some "a"); (0.4%Q, Some "b") ] |}).
Proof.
  intros hits ret h.
  apply (proj2 (search_pd_returns_score_value_frame
                  (QStr "a") 2 true (VBool true) None None h _ eq_refl)).
  exists ret, hits. repeat split; reflexivity.
Defined.

(** ** Against the mocked service *)

Section OnTheMock.
Variable similarity : string -> string -> Q.
Variable json_dumps : Value -> string.

Lemma StronglySorted_take {A} (R : relation A) (n : nat) (l : list A) :
  StronglySorted R l -> StronglySorted R (take n l).
Proof.
  intros Hl. revert n. induction Hl as [| x l Hl IH Hx]; intros [| n]; simpl;
    constructor; auto using Forall_take.
Qed.

(** The ranking of the mock is by non-increasing score, at most [k] long. *)
Lemma rank_sorted q k im items :
  StronglySorted Mock.by_score (Mock.rank similarity q k im items).
Proof.
  unfold Mock.rank. apply StronglySorted_take.
  apply StronglySorted_merge_sort; apply _.
Qed.

Lemma rank_length q k im items :
  (length (Mock.rank similarity q k im items) <= Z.to_nat k)%nat.
Proof. unfold Mock.rank. rewrite length_take. lia. Qed.

(** *** One value and a batch of one *)

(** C3.  On the mocked service, [insert] of the string [s] alone and
    [insert_many] of the batch [[s]] post different requests that stand for
    the same item: [insert_many] turns the string into the item whose only
    field is the value [s], which is also the item the single-value request
    describes.  The two calls get the same answer and leave the service in
    the same state. *)
Theorem insert_one_and_batch_of_one_agree
    (s : string) (reindex : bool) (sid sh : option string)
    (nm i : string) (n : Net Mock.Server) :
  let h := mock_heap similarity nm i n in
  let one := insert json_dumps s None None VNone reindex sid sh h in
  let many := insert_many json_dumps [AStr s] reindex sid sh h in
  let r1 :=
    IndexInsertRequest.mk (VStr i) (Some s) None None None None None VNone
      reindex in
  let r2 :=
    IndexInsertRequest.mk (VStr i) None (Some [IndexItem.of_value s])
      None None None None VNone reindex in
  payload <$> wire (net (snd one)) = ((payload <$> wire n) ++ [ReqInsert r1])%list
  /\ payload <$> wire (net (snd many)) = ((payload <$> wire n) ++ [ReqInsert r2])%list
  /\ Mock.items_of r1 = [IndexItem.of_value s]
  /\ Mock.items_of r2 = [IndexItem.of_value s]
  /\ fst one = fst many
  /\ server (net (snd one)) = server (net (snd many))
  /\ forall ix,
       Mock.indices (server n) !! i = Some ix ->
       fst many =
         inr {| task := None; data := Some (Ack Cls.IndexInsertResponse) |}
       /\ Mock.indices (server (net (snd many))) !! i =
            Some {| Mock.ix_name := Mock.ix_name ix;
                    Mock.ix_model := Mock.ix_model ix;
                    Mock.ix_items :=
                      (Mock.ix_items ix ++ [IndexItem.of_value s])%list |}.
Proof.
  intros h one many r1 r2. subst one many.
  unfold insert, insert_many.
  rewrite !(method_call (fun s => _)). simpl.
  rewrite !fmap_app. simpl.
  do 6 (split; [reflexivity |]).
  intros ix Hix. unfold Mock.post. simpl. rewrite Hix. simpl.
  split; [reflexivity | apply lookup_insert_eq].
Qed.


(** *** Search *)

(** C4.  [search] puts a single string in the [query] field of the request
    and a list in its [queries] field, and (with [pd] left [False]) returns
    the collaborator's answer as it is.  On the mocked service, on a live
    index, a single query is answered by one hit list in non-increasing order
    of score, and a batch of N queries by N hit lists, the one at position
    [j] being the hit list the query at position [j] gets on its own. *)
Theorem search_single_and_batch :
  (forall (W : Type) (h : Heap W) (k : Z) (im : bool) (sid sh : option string),
     (forall q : string,
        let c :=
          {| route := "embedding-index/search";
             payload := ReqSearch
               (IndexSearchRequest.mk (id (this h)) (Some q) None k im);
             expect := Some Cls.IndexSearchResponse;
             asynchronous := false;
             spaceId := sid;
             spaceHandle := sh |} in
        search (QStr q) k im (VBool false) sid sh h =
        (match fst (post (nludb (this h)) c (server (net h))) with
         | inl e => inl (Remote e)
         | inr ret => inr (RResponse ret)
         end, after_call h c))
     /\ (forall qs : list string,
        let c :=
          {| route := "embedding-index/search";
             payload := ReqSearch
               (IndexSearchRequest.mk (id (this h)) None (Some qs) k im);
             expect := Some Cls.IndexSearchResponse;
             asynchronous := false;
             spaceId := sid;
             spaceHandle := sh |} in
        search (QList qs) k im (VBool false) sid sh h =
        (match fst (post (nludb (this h)) c (server (net h))) with
         | inl e => inl (Remote e)
         | inr ret => inr (RResponse ret)
         end, after_call h c)))
  /\ (forall (k : Z) (im : bool) (sid sh : option string) (nm i : string)
        (n : Net Mock.Server) (ix : Mock.Index),
        Mock.indices (server n) !! i = Some ix ->
        let h := mock_heap similarity nm i n in
        let single q hits :=
          fst (search (QStr q) k im (VBool false) sid sh h) =
            inr (RResponse
                   {| task := None; data := Some (Search (OneHit <$> hits)) |})
          /\ StronglySorted (fun a b => (Hit.score b <= Hit.score a)%Q) hits in
        (forall q : string, exists hits, single q hits)
        /\ (forall qs : list string,
              exists lists,
                fst (search (QList qs) k im (VBool false) sid sh h) =
                  inr (RResponse
                         {| task := None;
                            data := Some (Search (HitList <$> lists)) |})
                /\ length lists = length qs
                /\ forall (j : nat) (q : string),
                     qs !! j = Some q ->
                     exists hits, lists !! j = Some hits /\ single q hits)).
Proof.
  split.
  - intros W h k im sid sh. split.
    + intros q c. pose proof (search_run (QStr q) k im (VBool false) sid sh h) as Hs.
      exact Hs.
    + intros qs c. pose proof (search_run (QList qs) k im (VBool false) sid sh h) as Hs.
      exact Hs.
  - intros k im sid sh nm i n ix Hix h single.
    assert (Hone : forall q, single q (Mock.rank similarity q k im (Mock.ix_items ix))).
    { intros q. split; [| apply rank_sorted].
      pose proof (search_run (QStr q) k im (VBool false) sid sh h) as Hs.
      cbv zeta in Hs. rewrite Hs. simpl.
      unfold Mock.post. simpl. rewrite Hix. reflexivity. }
    split.
    + intros q. eexists. apply Hone.
    + intros qs.
      exists ((fun q => Mock.rank similarity q k im (Mock.ix_items ix)) <$> qs).
      split; [| split].
      * pose proof (search_run (QList qs) k im (VBool false) sid sh h) as Hs.
        cbv zeta in Hs. rewrite Hs. simpl.
        unfold Mock.post. simpl. rewrite Hix. simpl.
        rewrite <- list_fmap_compose. reflexivity.
      * apply length_fmap.
      * intros j q Hq. eexists. split; [| apply Hone].
        rewrite list_lookup_fmap, Hq. reflexivity.
Qed.

(** *** Listing items *)

Lemma keeps_spec (filter field : option string) :
  Mock.keeps filter field = true <->
  (forall x, filter = Some x -> field = Some x).
Proof.
  destruct filter as [f |]; simpl.
  - rewrite bool_decide_eq_true. split.
    + intros -> x [= ->]. reflexivity.
    + intros H. apply H. reflexivity.
  - split; [discriminate | reflexivity].
Qed.

(** C8.  [list_items] posts a request holding the id of the index and the
    three filters exactly as they were passed, and returns the collaborator's
    answer.  On the mocked service, on a live index, the answer lists the
    items of the index that match every filter that was provided, and no
    other item. *)
Theorem list_items_sends_filters_and_gets_matching_items :
  (forall (W : Type) (h : Heap W) (f b sp sid sh : option string),
     let c :=
       {| route := "embedding-index/listItems";
          payload := ReqListItems (ListItemsRequest.mk (id (this h)) f b sp);
          expect := Some Cls.ListItemsResponse;
          asynchronous := false;
          spaceId := sid;
          spaceHandle := sh |} in
     list_items f b sp sid sh h =
     (raised (fst (post (nludb (this h)) c (server (net h)))), after_call h c))
  /\ (forall (f b sp sid sh : option string) (nm i : string)
        (n : Net Mock.Server) (ix : Mock.Index),
        Mock.indices (server n) !! i = Some ix ->
        exists l,
          fst (list_items f b sp sid sh (mock_heap similarity nm i n)) =
            inr {| task := None; data := Some (Items l) |}
          /\ forall it,
               In it l <->
               In it (Mock.ix_items ix)
               /\ (forall x, f = Some x -> IndexItem.fileId it = Some x)
               /\ (forall x, b = Some x -> IndexItem.blockId it = Some x)
               /\ (forall x, sp = Some x -> IndexItem.spanId it = Some x)).
Proof.
  split.
  - intros W h f b sp sid sh c. unfold list_items.
    apply (method_call (fun s => _)).
  - intros f b sp sid sh nm i n ix Hix.
    unfold list_items. rewrite (method_call (fun s => _)). simpl.
    unfold Mock.post. simpl. rewrite Hix. simpl.
    eexists. split; [reflexivity |].
    intros it. rewrite filter_In. unfold Mock.item_matches. simpl.
    rewrite !andb_true_iff, !keeps_spec. tauto.
Qed.

End OnTheMock.
Lemma insert_one_and_batch_of_one_agree_witness :
  let sv := Fixture.one_index in
  let h := mock_heap Fixture.similarity "docs" "idx_1" {| server := sv; wire := [] |} in
  let many := insert_many Fixture.json_dumps [AStr "a"] true None None h in
  fst many = inr {| task := None; data := Some (Ack Cls.IndexInsertResponse) |}
  /\ Mock.indices (server (net (snd many))) !! "idx_1" =
       Some {| Mock.ix_name := "docs";
               Mock.ix_model := "text-embedding";
               Mock.ix_items := [IndexItem.of_value "a"] |}.
Proof.
  intros sv h many.
  pose proof (insert_one_and_batch_of_one_agree
                Fixture.similarity Fixture.json_dumps "a" true None None
                "docs" "idx_1" {| server := sv; wire := [] |}) as H.
  cbv zeta in H.
  destruct H as (_ & _ & _ & _ & _ & _ & H).
  apply (H Fixture.docs).
  reflexivity.
Defined.


Lemma search_single_and_batch_witness :
  exists hits,
    fst (search (QStr "a") 2 true (VBool false) None None Fixture.stocked_heap) =
      inr (RResponse
             {| task := None; data := Some (Search (OneHit <$> hits)) |})
    /\ StronglySorted (fun a b => (Hit.score b <= Hit.score a)%Q) hits.
Proof.
  destruct (proj2 (search_single_and_batch Fixture.similarity)
              2 true None None "docs" "idx_1"
              {| server := Fixture.stocked; wire := [] |}
              {| Mock.ix_name := "docs";
                 Mock.ix_model := "text-embedding";
                 Mock.ix_items :=
                   [ IndexItem.mk (Some "a") (Some "f1") (Some "b1") None None
                       None (VStr "m");
                     IndexItem.mk (Some "b") (Some "f1") (Some "b2") None None
                       None VNone;
                     IndexItem.mk (Some "c") (Some "f2") (Some "b1") None None
                       None VNone ] |}
              eq_refl) as [Hsingle _].
  exact (Hsingle "a").
Defined.

Lemma list_items_sends_filters_and_gets_matching_items_witness :
  exists l,
    fst (list_items (Some "f1") (Some "b1") None None None Fixture.stocked_heap) =
      inr {| task := None; data := Some (Items l) |}
    /\ forall it,
         In it l <->
         In it [ IndexItem.mk (Some "a") (Some "f1") (Some "b1") None None None
                   (VStr "m");
                 IndexItem.mk (Some "b") (Some "f1") (Some "b2") None None None
                   VNone;
                 IndexItem.mk (Some "c") (Some "f2") (Some "b1") None None None
                   VNone ]
         /\ (forall x, Some "f1" = Some x -> IndexItem.fileId it = Some x)
         /\ (forall x, Some "b1" = Some x -> IndexItem.blockId it = Some x)
         /\ (forall x, @None string = Some x -> IndexItem.spanId it = Some x).
Proof.
  exact (proj2 (list_items_sends_filters_and_gets_matching_items
                  Fixture.similarity)
           (Some "f1") (Some "b1") None None None "docs" "idx_1"
           {| server := Fixture.stocked; wire := [] |}
           {| Mock.ix_name := "docs";
              Mock.ix_model := "text-embedding";
              Mock.ix_items :=
                [ IndexItem.mk (Some "a") (Some "f1") (Some "b1") None None
                    None (VStr "m");
                  IndexItem.mk (Some "b") (Some "f1") (Some "b2") None None
                    None VNone;
                  IndexItem.mk (Some "c") (Some "f2") (Some "b1") None None
                    None VNone ] |}
           eq_refl).
Defined.


(** ** After [delete] *)

Section Deleted.
Variable similarity : string -> string -> Q.
Variable json_dumps : Value -> string.

(** A successful [delete] request leaves the index gone. *)
Lemma delete_makes_gone (c : PostCall) (i : string) (sv0 sv1 : Mock.Server)
    (r : Response) :
  payload c = ReqDelete (IndexDeleteRequest.mk (VStr i)) ->
  Mock.post similarity c sv0 = (inr r, sv1) ->
  gone i sv0 sv1.
Proof.
  intros Hp. unfold Mock.post. rewrite Hp. simpl.
  destruct (negb _); [discriminate |].
  destruct (Mock.indices sv0 !! i) as [ix |]; [| discriminate].
  intros [= _ <-]. split; simpl.
  - apply lookup_delete_eq.
  - intros s Hs. apply map_lookup_filter_None. right.
    intros x Hx. simpl. rewrite Hs in Hx. injection Hx as <-. auto.
Qed.

(** A request that names a gone index is answered "not found", and nothing
    changes. *)
Lemma gone_not_found (c : PostCall) (i : string) (sv0 sv : Mock.Server) :
  gone i sv0 sv ->
  target (payload c) = Some (VStr i) ->
  Mock.post similarity c sv = (inl Mock.not_found, sv).
Proof.
  intros [Hi _] Ht. unfold Mock.post.
  destruct (negb _); [reflexivity |].
  destruct (payload c) as [r | r | r | r | r | r | r | r | r]; simpl in Ht;
    try discriminate; injection Ht as Ht; rewrite Ht; simpl; rewrite Hi;
    reflexivity.
Qed.

(** So is a request to delete one of its former snapshots. *)
Lemma gone_snapshot_not_found (c : PostCall) (i s : string)
    (sv0 sv : Mock.Server) :
  gone i sv0 sv ->
  Mock.snapshots sv0 !! s = Some i ->
  payload c = ReqDeleteSnapshots (DeleteSnapshotsRequest.mk s) ->
  Mock.post similarity c sv = (inl Mock.not_found, sv).
Proof.
  intros [_ Hs] H0 Hp. unfold Mock.post. rewrite Hp. simpl.
  destruct (negb _); [reflexivity |].
  rewrite (Hs s H0). reflexivity.
Qed.

(** Deleting a snapshot does not bring the index back. *)
Lemma gone_delete_snapshot (c : PostCall) (i s : string)
    (sv0 sv : Mock.Server) :
  gone i sv0 sv ->
  payload c = ReqDeleteSnapshots (DeleteSnapshotsRequest.mk s) ->
  gone i sv0 (snd (Mock.post similarity c sv)).
Proof.
  intros Hg Hp. unfold Mock.post. rewrite Hp. simpl.
  destruct (negb _); [exact Hg |].
  destruct (Mock.snapshots sv !! s) as [j |]; [| exact Hg].
  destruct Hg as [Hi Hs]. split; simpl; [exact Hi |].
  intros s' H0. apply lookup_delete_None. right. auto.
Qed.

(** What an operation through a handle on a gone index does. *)
Lemma invoke_gone (op : Operation) (sid sh : option string) (nm i : string)
    (n : Net Mock.Server) (sv0 : Mock.Server) :
  gone i sv0 (server n) ->
  let h := mock_heap similarity nm i n in
  let out := invoke json_dumps op sid sh h in
  (exists n', snd out = mock_heap similarity nm i n' /\ gone i sv0 (server n'))
  /\ (addresses_index op = true -> fst out = inl (Remote Mock.not_found))
  /\ (forall s, op = OpDeleteSnapshot s ->
        Mock.snapshots sv0 !! s = Some i ->
        fst out = inl (Remote Mock.not_found)).
Proof.
  intros Hg h out. subst out.
  destruct (invoke_call json_dumps op sid sh h) as (c & Hs & Hf & _ & Ht & Hd).
  rewrite Hs. simpl in *.
  destruct (addresses_index op) eqn:Ha.
  - pose proof (gone_not_found c i sv0 (server n) Hg Ht) as Hp.
    split; [| split].
    + eexists. split; [reflexivity |]. simpl. rewrite Hp. exact Hg.
    + intros _. apply Hf. rewrite Hp. reflexivity.
    + intros s ->. discriminate.
  - destruct op; try discriminate.
    specialize (Hd _ eq_refl).
    split; [| split].
    + eexists. split; [reflexivity |]. simpl.
      eapply gone_delete_snapshot; eassumption.
    + discriminate.
    + intros s [= <-] H0. apply Hf.
      rewrite (gone_snapshot_not_found c i snapshot_id sv0 (server n) Hg H0 Hd).
      reflexivity.
Qed.

(** Once the index is gone, it stays gone through any sequence of
    operations of the handle. *)
Lemma run_all_gone (nm i : string) (sv0 : Mock.Server)
    (ops : list (Operation * option string * option string))
    (n1 : Net Mock.Server) :
  gone i sv0 (server n1) ->
  Forall2
    (fun (o : Operation * option string * option string) (out : Exn + Returned) =>
       (addresses_index (fst (fst o)) = true -> surfaces_not_found out)
       /\ (forall s, fst (fst o) = OpDeleteSnapshot s ->
             Mock.snapshots sv0 !! s = Some i ->
             surfaces_not_found out))
    ops (fst (run_all json_dumps ops (mock_heap similarity nm i n1))).
Proof.
  revert n1. induction ops as [| [[op sid] sh] ops IH]; intros n1 Hg; simpl.
  - constructor.
  - destruct (invoke_gone op sid sh nm i n1 sv0 Hg)
      as ((n2 & Hn2 & Hg2) & Ha & Hd).
    destruct (invoke json_dumps op sid sh (mock_heap similarity nm i n1))
      as [out h2] eqn:Ho. simpl in *. subst h2.
    specialize (IH n2 Hg2).
    destruct (run_all json_dumps ops (mock_heap similarity nm i n2)) as [outs h3].
    simpl in *. constructor; [| exact IH].
    split.
    + intros Hop. exists Mock.not_found. split; [auto | reflexivity].
    + intros s Hop H0. exists Mock.not_found. split; [eauto | reflexivity].
Qed.

(** C6, as the code has it.  After a successful [delete] through a handle on
    the mocked service, in every sequence of further operations through the
    same handle, each operation whose request names the index (all but
    [delete_snapshot]) fails with "not found", and so does [delete_snapshot]
    of any snapshot the index had. *)
Theorem operations_after_delete_are_not_found
    (sid sh : option string) (nm i : string) (n : Net Mock.Server)
    (r : Response) (h1 : Heap Mock.Server)
    (ops : list (Operation * option string * option string)) :
  delete sid sh (mock_heap similarity nm i n) = (inr r, h1) ->
  Forall2
    (fun (o : Operation * option string * option string) (out : Exn + Returned) =>
       (addresses_index (fst (fst o)) = true -> surfaces_not_found out)
       /\ (forall s, fst (fst o) = OpDeleteSnapshot s ->
             Mock.snapshots (server n) !! s = Some i ->
             surfaces_not_found out))
    ops (fst (run_all json_dumps ops h1)).
Proof.
  unfold delete. rewrite (method_call (fun s => _)). simpl.
  set (c := {| route := "embedding-index/delete" |}).
  destruct (Mock.post similarity c (server n)) as [[e | r'] sv1] eqn:Hp;
    simpl; [discriminate |].
  intros [= _ <-].
  pose proof (delete_makes_gone c i (server n) sv1 r' eq_refl Hp) as Hg.
  unfold after_call. simpl. rewrite Hp. simpl.
  apply (run_all_gone nm i (server n) ops
           {| server := sv1; wire := (wire n ++ [c])%list |} Hg).
Qed.

End Deleted.

(** C6, as stated, fails: [delete_snapshot] sends the snapshot id alone, so
    the service cannot tell which handle it came through.  On [stocked],
    after [idx_1] has been deleted through its handle, the same handle still
    deletes [snap_2], a snapshot of [idx_2]. *)
Lemma delete_snapshot_after_delete_succeeds :
  exists r h1 r',
    delete None None Fixture.stocked_heap = (inr r, h1)
    /\ fst (invoke Fixture.json_dumps (OpDeleteSnapshot "snap_2") None None h1)
       = inr r'
    /\ ~ surfaces_not_found
           (fst (invoke Fixture.json_dumps (OpDeleteSnapshot "snap_2") None None h1)).
Proof.
  do 3 eexists. split; [vm_compute; reflexivity |].
  split; [vm_compute; reflexivity |].
  intros (e & He & _). vm_compute in He. discriminate.
Qed.

Lemma operations_after_delete_are_not_found_witness :
  exists r h1,
    delete None None Fixture.stocked_heap = (inr r, h1)
    /\ Forall2
         (fun (o : Operation * option string * option string)
              (out : Exn + Returned) =>
            (addresses_index (fst (fst o)) = true -> surfaces_not_found out)
            /\ (forall s, fst (fst o) = OpDeleteSnapshot s ->
                  Mock.snapshots Fixture.stocked !! s = Some "idx_1" ->
                  surfaces_not_found out))
         [ (OpSearch (QStr "a") 1 false (VBool false), None, None);
           (OpDeleteSnapshot "snap_1", None, None);
           (OpInsert "d" None None VNone true, None, None) ]
         (fst (run_all Fixture.json_dumps
                 [ (OpSearch (QStr "a") 1 false (VBool false), None, None);
                   (OpDeleteSnapshot "snap_1", None, None);
                   (OpInsert "d" None None VNone true, None, None) ]
                 h1)).
Proof.
  do 2 eexists. split; [vm_compute; reflexivity |].
  eapply (operations_after_delete_are_not_found
            Fixture.similarity Fixture.json_dumps None None "docs" "idx_1"
            {| server := Fixture.stocked; wire := [] |}).
  vm_compute. reflexivity.
Defined.

(** * Further properties of the methods *)

(** ** What goes on the wire *)

Section Wire.
Context {W : Type}.
Variable json_dumps : Value -> string.

Lemma last_call_after (h : Heap W) (c : PostCall) :
  last_call (after_call h c) = Some c.
Proof. unfold last_call, after_call. simpl. apply last_snoc. Qed.

(** The call of each operation, field by field. *)
Lemma invoke_posts op sid sh (h : Heap W) :
  exists c,
    snd (invoke json_dumps op sid sh h) = after_call h c
    /\ spaceId c = sid
    /\ spaceHandle c = sh
    /\ asynchronous c =
         match op with
         | OpEmbed | OpCreateSnapshot => true
         | _ => false
         end
    /\ target (payload c) =
         (if addresses_index op then Some (id (this h)) else None)
    /\ forall r,
         payload c = ReqInsert r ->
         route c = "embedding-index/insert"
         /\ expect c = Some Cls.IndexInsertResponse
         /\ match IndexInsertRequest.value r, IndexInsertRequest.items r,
                  IndexInsertRequest.fileId r with
            | Some _, None, None | None, Some _, None | None, None, Some _ => True
            | _, _, _ => False
            end.
Proof.
  destruct op as [f bt ei et md re | items re | v ei et md re | | | |
                    f b sp | snap | | query k im pd]; simpl;
    try (rewrite fmap_run;
         cbv beta delta [insert_file insert_many insert embed create_snapshot
                         list_snapshots list_items delete_snapshot delete];
         rewrite (method_call (fun s => _)); simpl;
         eexists; split; [reflexivity |];
         do 4 (split; [reflexivity |]);
         intros r; try discriminate; intros [= <-]; simpl; auto).
  pose proof (search_run query k im pd sid sh h) as Hs.
  cbv zeta in Hs. rewrite Hs. simpl.
  eexists; split; [reflexivity |].
  do 3 (split; [reflexivity |]).
  split; [destruct query; reflexivity |].
  intros r; discriminate.
Qed.

(** The call an operation has issued is the last one on the wire. *)
Lemma invoke_last_call op sid sh (h : Heap W) (c : PostCall) :
  last_call (snd (invoke json_dumps op sid sh h)) = Some c ->
  snd (invoke json_dumps op sid sh h) = after_call h c.
Proof.
  destruct (invoke_call json_dumps op sid sh h) as (c' & Hs & _).
  rewrite Hs, last_call_after. intros [= ->]. reflexivity.
Qed.

End Wire.

Section WireFacts.
Context {W : Type}.
Variable json_dumps : Value -> string.

(** X1.  The workspace selectors are not interpreted by the handle: the call
    an operation issues carries [spaceId] and [spaceHandle] exactly as the
    caller gave them, both, one or none. *)
Theorem selectors_are_sent_as_given
    (op : Operation) (sid sh : option string) (h : Heap W) (c : PostCall) :
  last_call (snd (invoke json_dumps op sid sh h)) = Some c ->
  spaceId c = sid /\ spaceHandle c = sh.
Proof.
  destruct (invoke_posts json_dumps op sid sh h) as (c' & Hs & Hsid & Hsh & _).
  rewrite Hs, last_call_after. intros [= <-]. split; assumption.
Qed.

(** X2.  [embed] and [create_snapshot] are the only operations that post
    asynchronously. *)
Theorem asynchronous_only_for_embed_and_create_snapshot
    (op : Operation) (sid sh : option string) (h : Heap W) (c : PostCall) :
  last_call (snd (invoke json_dumps op sid sh h)) = Some c ->
  asynchronous c = true <-> op = OpEmbed \/ op = OpCreateSnapshot.
Proof.
  destruct (invoke_posts json_dumps op sid sh h) as (c' & Hs & _ & _ & Ha & _).
  rewrite Hs, last_call_after. intros [= <-]. rewrite Ha.
  destruct op; split; try discriminate; auto; intros [? | ?]; discriminate.
Qed.

(** X3.  A handle speaks of no other index than its own: the request of
    every operation holds [self.id] as its index id, except the request of
    [delete_snapshot], which holds no index id. *)
Theorem requests_name_the_index_of_the_handle
    (op : Operation) (sid sh : option string) (h : Heap W) (c : PostCall) :
  last_call (snd (invoke json_dumps op sid sh h)) = Some c ->
  target (payload c) =
    match op with
    | OpDeleteSnapshot _ => None
    | _ => Some (id (this h))
    end.
Proof.
  destruct (invoke_posts json_dumps op sid sh h)
    as (c' & Hs & _ & _ & _ & Ht & _).
  rewrite Hs, last_call_after. intros [= <-]. rewrite Ht.
  destruct op; reflexivity.
Qed.

(** X4.  The three ways to insert share one route and one expected shape,
    and an insert request holds exactly one of a single [value], a batch of
    [items] and a [fileId]. *)
Theorem insert_requests_hold_one_kind_of_content
    (op : Operation) (sid sh : option string) (h : Heap W) (c : PostCall)
    (r : IndexInsertRequest.t) :
  last_call (snd (invoke json_dumps op sid sh h)) = Some c ->
  payload c = ReqInsert r ->
  route c = "embedding-index/insert"
  /\ expect c = Some Cls.IndexInsertResponse
  /\ ((exists v, IndexInsertRequest.value r = Some v)
        /\ IndexInsertRequest.items r = None
        /\ IndexInsertRequest.fileId r = None
      \/ IndexInsertRequest.value r = None
        /\ (exists l, IndexInsertRequest.items r = Some l)
        /\ IndexInsertRequest.fileId r = None
      \/ IndexInsertRequest.value r = None
        /\ IndexInsertRequest.items r = None
        /\ (exists f, IndexInsertRequest.fileId r = Some f)).
Proof.
  destruct (invoke_posts json_dumps op sid sh h)
    as (c' & Hs & _ & _ & _ & _ & Hi).
  rewrite Hs, last_call_after. intros [= <-] Hp.
  destruct (Hi r Hp) as (Hr & He & Hk).
  split; [assumption |]. split; [assumption |].
  destruct (IndexInsertRequest.value r) as [v |],
           (IndexInsertRequest.items r) as [l |],
           (IndexInsertRequest.fileId r) as [f |];
    try contradiction; eauto 10.
Qed.

(** X5.  [insert_file] never posts structured metadata: the metadata of its
    request is a string when the argument is a mapping or a sequence, and
    the argument itself otherwise; the file id and block type are those
    given. *)
Theorem insert_file_metadata_is_never_structured
    (f : string) (bt ei et : option string) (md : Value) (re : bool)
    (sid sh : option string) (h : Heap W) :
  exists c r,
    snd (insert_file json_dumps f bt ei et md re sid sh h) = after_call h c
    /\ payload c = ReqInsert r
    /\ is_structured (IndexInsertRequest.metadata r) = false
    /\ IndexInsertRequest.metadata r =
         (if is_structured md then VStr (json_dumps md) else md)
    /\ IndexInsertRequest.fileId r = Some f
    /\ IndexInsertRequest.blockType r = bt
    /\ IndexInsertRequest.externalId r = ei
    /\ IndexInsertRequest.externalType r = et
    /\ IndexInsertRequest.reindex r = re.
Proof.
  unfold insert_file. rewrite (method_call (fun s => _)). simpl.
  do 2 eexists. split; [reflexivity |]. split; [reflexivity |]. simpl.
  split; [| repeat split].
  destruct (is_structured md) eqn:Hm; [reflexivity | assumption].
Qed.

(** X6.  [insert_many] posts one request whatever the size of the batch,
    the empty batch included; its items are as many as the elements given
    and in their order, a string [s] standing as the clone of
    [IndexItem(value=s)] and an item as its own clone; the request holds no
    value, external identity or metadata of its own. *)
Theorem insert_many_keeps_count_and_order
    (items : list ItemOrStr) (re : bool) (sid sh : option string) (h : Heap W) :
  exists c r l,
    snd (insert_many json_dumps items re sid sh h) = after_call h c
    /\ payload c = ReqInsert r
    /\ IndexInsertRequest.items r = Some l
    /\ length l = length items
    /\ (items = [] -> l = [])
    /\ (forall j s, items !! j = Some (AStr s) ->
          l !! j = Some (clone_for_insert json_dumps (IndexItem.of_value s)))
    /\ (forall j it, items !! j = Some (AnItem it) ->
          l !! j = Some (clone_for_insert json_dumps it))
    /\ IndexInsertRequest.value r = None
    /\ IndexInsertRequest.externalId r = None
    /\ IndexInsertRequest.externalType r = None
    /\ IndexInsertRequest.metadata r = VNone
    /\ IndexInsertRequest.reindex r = re.
Proof.
  unfold insert_many. rewrite (method_call (fun s => _)). simpl.
  do 3 eexists. split; [reflexivity |]. split; [reflexivity |]. simpl.
  split; [reflexivity |].
  split; [rewrite !length_map; reflexivity |].
  split; [intros ->; reflexivity |].
  split; [| split; [| repeat split]].
  - intros j s Hj.
    change (map (clone_for_insert json_dumps) (map normalize items))
      with (clone_for_insert json_dumps <$> (normalize <$> items)).
    rewrite !list_lookup_fmap, Hj. reflexivity.
  - intros j it Hj.
    change (map (clone_for_insert json_dumps) (map normalize items))
      with (clone_for_insert json_dumps <$> (normalize <$> items)).
    rewrite !list_lookup_fmap, Hj. reflexivity.
Qed.

End WireFacts.

(** ** The [pd] flag and answers the handle cannot read *)

Section Answers.
Context {W : Type}.
Variable json_dumps : Value -> string.

Lemma is_False_spec (pd : Value) : is_False pd = true <-> pd = VBool false.
Proof.
  destruct pd as [| [] | | | | |]; simpl; split; try discriminate; auto.
Qed.

(** X7.  [search] tests [pd is False], not the truth value of [pd]: when it
    returns, it returns the response wrapper exactly when [pd] is the object
    [False].  With [None], [0] or an empty string as [pd] the caller gets a
    data frame. *)
Theorem search_returns_the_response_only_for_False
    (query : Query) (k : Z) (im : bool) (pd : Value) (sid sh : option string)
    (h : Heap W) (v : Returned) :
  fst (search query k im pd sid sh h) = inr v ->
  ((exists ret, v = RResponse ret) <-> pd = VBool false)
  /\ ((exists df, v = RDataFrame df) <-> pd <> VBool false).
Proof.
  pose proof (search_run query k im pd sid sh h) as Hs.
  cbv zeta in Hs. rewrite Hs. clear Hs. simpl.
  destruct (fst (post _ _ _)) as [e | ret]; [discriminate |].
  rewrite <- is_False_spec.
  destruct (is_False pd) eqn:Hpd.
  - intros [= <-]. split; split; eauto; try congruence.
    intros (df & [=]).
  - unfold mbind at 1, M_bind at 1.
    destruct (data_hits ret _) as [[e | hits] h1]; simpl; [discriminate |].
    unfold mbind, M_bind, mret, M_ret.
    destruct (for_each score_value hits h1) as [[e | rows] h2]; simpl;
      [discriminate |].
    intros [= <-]. split; split; eauto; try congruence.
    intros (ret' & [=]).
Qed.

(** X8.  With [pd] other than [False], an answer whose body is missing or
    is not a decoded search response makes [search] raise [AttributeError]
    (for [hits]); the request has been posted all the same, and the network
    is as the successful call would leave it. *)
Theorem search_frame_needs_search_data
    (query : Query) (k : Z) (im : bool) (pd : Value) (sid sh : option string)
    (h : Heap W) (ret : Response) (c : PostCall) :
  pd <> VBool false ->
  last_call (snd (search query k im (VBool false) sid sh h)) = Some c ->
  fst (post (nludb (this h)) c (server (net h))) = inr ret ->
  (forall hits, data ret <> Some (Search hits)) ->
  search query k im pd sid sh h = (inl (AttributeError "hits"), after_call h c)
  /\ search query k im (VBool false) sid sh h = (inr (RResponse ret), after_call h c).
Proof.
  intros Hpd.
  assert (is_False pd = false) as Hf.
  { destruct (is_False pd) eqn:E; [| reflexivity].
    apply is_False_spec in E. contradiction. }
  pose proof (search_run query k im pd sid sh h) as Hs.
  pose proof (search_run query k im (VBool false) sid sh h) as Hs0.
  cbv zeta in Hs, Hs0. rewrite Hs, Hs0. clear Hs Hs0. simpl.
  rewrite last_call_after. intros [= <-] Hp Hd.
  rewrite Hp, Hf. split; [| reflexivity].
  f_equal. unfold mbind, M_bind, data_hits.
  destruct (data ret) as [[d | hits | | |] |]; try reflexivity.
  destruct (Hd hits eq_refl).
Qed.

(** X9.  When the answer to the create request has no body, or a body that
    is not an undecoded JSON object, [create] raises [AttributeError] (for
    [get]) and returns no handle, although the request has been posted and
    the service has moved on. *)
Theorem create_needs_a_json_body
    (api : ApiBase W) (nm model : string) (upsert : bool)
    (ei et : option string) (md : Value) (sid sh : option string)
    (n : Net W) (res : Response) (w' : W) :
  post api
    {| route := "embedding-index/create";
       payload := ReqCreate (IndexCreateRequest.mk nm model upsert ei et md);
       expect := None;
       asynchronous := false;
       spaceId := sid;
       spaceHandle := sh |} (server n) = (inr res, w') ->
  (forall d, data res <> Some (Raw d)) ->
  create api nm model upsert ei et md sid sh n =
  (inl (AttributeError "get"),
   {| server := w';
      wire := (wire n ++
        [ {| route := "embedding-index/create";
             payload := ReqCreate (IndexCreateRequest.mk nm model upsert ei et md);
             expect := None;
             asynchronous := false;
             spaceId := sid;
             spaceHandle := sh |} ])%list |}).
Proof.
  intros Hp Hd.
  pose proof (create_run api nm model upsert ei et md sid sh n) as Hc.
  cbv zeta in Hc. rewrite Hc, Hp. simpl.
  destruct (data res) as [[d | | | |] |]; try reflexivity.
  destruct (Hd d eq_refl).
Qed.

(** X10.  The id [create] reads from the answer is the id the handle then
    sends: when the create request is answered with the JSON object [d],
    [create] returns a handle, and every later operation through it, other
    than [delete_snapshot], posts to the same collaborator a request whose
    index id is [d.get("id")]: [None] when the key is missing. *)
Theorem create_then_operate
    (api : ApiBase W) (nm model : string) (upsert : bool)
    (ei et : option string) (md : Value) (sid sh : option string)
    (n : Net W) (res : Response) (d : gmap string Value) :
  fst (post api
         {| route := "embedding-index/create";
            payload := ReqCreate (IndexCreateRequest.mk nm model upsert ei et md);
            expect := None;
            asynchronous := false;
            spaceId := sid;
            spaceHandle := sh |} (server n)) = inr res ->
  data res = Some (Raw d) ->
  exists hd n',
    create api nm model upsert ei et md sid sh n = (inr hd, n')
    /\ forall (op : Operation) (sid' sh' : option string),
         addresses_index op = true ->
         exists c,
           let h := {| this := hd; net := n' |} in
           snd (invoke json_dumps op sid' sh' h) =
             {| this := hd;
                net := {| server := snd (post api c (server n'));
                          wire := (wire n' ++ [c])%list |} |}
           /\ target (payload c) = Some (default VNone (d !! "id")).
Proof.
  intros Hp Hd.
  pose proof (create_run api nm model upsert ei et md sid sh n) as Hc.
  cbv zeta in Hc. rewrite Hc, Hp, Hd. clear Hc.
  do 2 eexists. split; [reflexivity |].
  intros op sid' sh' Ha.
  destruct (invoke_posts json_dumps op sid' sh'
              {| this := {| nludb := api; name := nm;
                            id := default VNone (d !! "id") |};
                 net := {| server := snd (post api
                             {| route := "embedding-index/create";
                                payload := ReqCreate
                                  (IndexCreateRequest.mk nm model upsert ei et md);
                                expect := None;
                                asynchronous := false;
                                spaceId := sid;
                                spaceHandle := sh |} (server n));
                           wire := (wire n ++
                             [ {| route := "embedding-index/create";
                                  payload := ReqCreate
                                    (IndexCreateRequest.mk nm model upsert ei et md);
                                  expect := None;
                                  asynchronous := false;
                                  spaceId := sid;
                                  spaceHandle := sh |} ])%list |} |})
    as (c & Hs & _ & _ & _ & Ht & _).
  exists c. cbv zeta. rewrite Hs. rewrite Ha in Ht. split; [reflexivity | exact Ht].
Qed.

(** ** What a request does not depend on *)

(** The outcome of the pandas half of [search] depends on the response
    alone. *)
Lemma for_each_score_value_outcome (hits : list HitEntry) (s1 s2 : Heap W) :
  fst (for_each score_value hits s1) = fst (for_each score_value hits s2).
Proof.
  induction hits as [| [x | l] hits IH]; simpl; try reflexivity.
  unfold mbind, M_bind. simpl.
  rewrite (surjective_pairing (for_each score_value hits s1)),
          (surjective_pairing (for_each score_value hits s2)), IH.
  destruct (fst (for_each score_value hits s2)); reflexivity.
Qed.

Lemma frame_outcome (ret : Response) (s1 s2 : Heap W) :
  fst ((hits ← data_hits ret;
        rows ← for_each score_value hits;
        mret (RDataFrame {| columns := ["Score"; "Value"]; rows := rows |})) s1) =
  fst ((hits ← data_hits ret;
        rows ← for_each score_value hits;
        mret (RDataFrame {| columns := ["Score"; "Value"]; rows := rows |})) s2).
Proof.
  unfold mbind, M_bind, mret, M_ret, data_hits.
  destruct (data ret) as [[d | hits | | |] |]; try reflexivity. simpl.
  rewrite (surjective_pairing (for_each score_value hits s1)),
          (surjective_pairing (for_each score_value hits s2)),
          (for_each_score_value_outcome hits s1 s2).
  destruct (fst (for_each score_value hits s2)); reflexivity.
Qed.


(** X11.  [delete_snapshot] does not use the id of the handle: through two
    handles on the same collaborator, whatever their ids and names, it gets
    the same outcome and leaves the same network. *)
Theorem delete_snapshot_ignores_the_handle_id
    (api : ApiBase W) (nm1 nm2 : string) (i1 i2 : Value) (n : Net W)
    (snapshot_id : string) (sid sh : option string) :
  let h1 := {| this := {| nludb := api; name := nm1; id := i1 |}; net := n |} in
  let h2 := {| this := {| nludb := api; name := nm2; id := i2 |}; net := n |} in
  fst (delete_snapshot snapshot_id sid sh h1) =
    fst (delete_snapshot snapshot_id sid sh h2)
  /\ net (snd (delete_snapshot snapshot_id sid sh h1)) =
       net (snd (delete_snapshot snapshot_id sid sh h2)).
Proof.
  intros h1 h2. unfold delete_snapshot.
  rewrite !(method_call (fun s => _)). split; reflexivity.
Qed.

(** X12.  The name of a handle is never sent: two handles with the same
    collaborator and id get the same outcome from every operation and leave
    the same network, whatever their names. *)
Theorem name_is_never_sent
    (api : ApiBase W) (nm1 nm2 : string) (i : Value) (n : Net W)
    (op : Operation) (sid sh : option string) :
  let h1 := {| this := {| nludb := api; name := nm1; id := i |}; net := n |} in
  let h2 := {| this := {| nludb := api; name := nm2; id := i |}; net := n |} in
  fst (invoke json_dumps op sid sh h1) = fst (invoke json_dumps op sid sh h2)
  /\ net (snd (invoke json_dumps op sid sh h1)) =
       net (snd (invoke json_dumps op sid sh h2)).
Proof.
  intros h1 h2.
  destruct op as [f bt ei et md re | items re | v ei et md re | | | |
                    f b sp | snap | | query k im pd]; simpl;
    try (rewrite !fmap_run;
         cbv beta delta [insert_file insert_many insert embed create_snapshot
                         list_snapshots list_items delete_snapshot delete];
         rewrite !(method_call (fun s => _)); split; reflexivity).
  pose proof (search_run query k im pd sid sh h1) as Hs1.
  pose proof (search_run query k im pd sid sh h2) as Hs2.
  cbv zeta in Hs1, Hs2. rewrite Hs1, Hs2. simpl. split; [| reflexivity].
  destruct (fst (post api _ (server n))) as [e | ret]; [reflexivity |].
  destruct (is_False pd); [reflexivity |].
  apply frame_outcome.
Qed.

(** ** Sequences of operations *)

(** X13.  Through any sequence of operations, failed or not, the handle
    stays as it was, every operation gives one outcome, and the wire grows by
    exactly one call per operation, the earlier calls staying in place. *)
Theorem run_all_appends_one_call_per_operation
    (ops : list (Operation * option string * option string)) (h : Heap W) :
  this (snd (run_all json_dumps ops h)) = this h
  /\ length (fst (run_all json_dumps ops h)) = length ops
  /\ exists cs,
       wire (net (snd (run_all json_dumps ops h))) = (wire (net h) ++ cs)%list
       /\ length cs = length ops.
Proof.
  revert h. induction ops as [| [[op sid] sh] ops IH]; intros h; simpl.
  - split; [reflexivity |]. split; [reflexivity |].
    exists []. split; [symmetry; apply app_nil_r | reflexivity].
  - destruct (invoke_call json_dumps op sid sh h) as (c & Hs & _).
    destruct (invoke json_dumps op sid sh h) as [out h'] eqn:Ho.
    simpl in Hs. subst h'.
    destruct (IH (after_call h c)) as (Ht & Hl & cs & Hw & Hcs).
    destruct (run_all json_dumps ops (after_call h c)) as [outs h''].
    simpl in *. split; [exact Ht |]. split; [f_equal; exact Hl |].
    exists (c :: cs). split; [| simpl; f_equal; exact Hcs].
    rewrite Hw. rewrite <- app_assoc. reflexivity.
Qed.

End Answers.

(** ** Runs on concrete inputs *)

Lemma selectors_are_sent_as_given_witness :
  let c :=
    {| route := "embedding-index/embed";
       payload := ReqEmbed (IndexEmbedRequest.mk (VStr "idx_1"));
       expect := Some Cls.IndexEmbedRequest;
       asynchronous := true;
       spaceId := Some "space_7";
       spaceHandle := Some "team" |} in
  spaceId c = Some "space_7" /\ spaceHandle c = Some "team".
Proof.
  intros c.
  apply (selectors_are_sent_as_given Fixture.json_dumps OpEmbed
           (Some "space_7") (Some "team")
           (canned_heap (inr {| task := None; data := None |})) c).
  reflexivity.
Defined.

Lemma asynchronous_only_for_embed_and_create_snapshot_witness :
  let c :=
    {| route := "embedding-index/delete";
       payload := ReqDelete (IndexDeleteRequest.mk (VStr "idx_1"));
       expect := Some Cls.IndexDeleteResponse;
       asynchronous := false;
       spaceId := None;
       spaceHandle := None |} in
  asynchronous c = true <-> OpDelete = OpEmbed \/ OpDelete = OpCreateSnapshot.
Proof.
  intros c.
  apply (asynchronous_only_for_embed_and_create_snapshot Fixture.json_dumps
           OpDelete None None
           (canned_heap (inr {| task := None; data := None |})) c).
  reflexivity.
Defined.

Lemma requests_name_the_index_of_the_handle_witness :
  let c :=
    {| route := "embedding-index/listItems";
       payload := ReqListItems
         (ListItemsRequest.mk (VStr "idx_1") (Some "f1") None None);
       expect := Some Cls.ListItemsResponse;
       asynchronous := false;
       spaceId := None;
       spaceHandle := None |} in
  target (payload c) = Some (VStr "idx_1").
Proof.
  intros c.
  apply (requests_name_the_index_of_the_handle Fixture.json_dumps
           (OpListItems (Some "f1") None None) None None
           (canned_heap (inr {| task := None; data := None |})) c).
  reflexivity.
Defined.

Lemma insert_requests_hold_one_kind_of_content_witness :
  let r :=
    IndexInsertRequest.mk (VStr "idx_1") None None (Some "f1") (Some "page")
      None None (VStr "<json>") true in
  let c :=
    {| route := "embedding-index/insert";
       payload := ReqInsert r;
       expect := Some Cls.IndexInsertResponse;
       asynchronous := false;
       spaceId := None;
       spaceHandle := None |} in
  route c = "embedding-index/insert"
  /\ expect c = Some Cls.IndexInsertResponse
  /\ ((exists v, IndexInsertRequest.value r = Some v)
        /\ IndexInsertRequest.items r = None
        /\ IndexInsertRequest.fileId r = None
      \/ IndexInsertRequest.value r = None
        /\ (exists l, IndexInsertRequest.items r = Some l)
        /\ IndexInsertRequest.fileId r = None
      \/ IndexInsertRequest.value r = None
        /\ IndexInsertRequest.items r = None
        /\ (exists f, IndexInsertRequest.fileId r = Some f)).
Proof.
  intros r c.
  apply (insert_requests_hold_one_kind_of_content Fixture.json_dumps
           (OpInsertFile "f1" (Some "page") None None (VList [VInt 1]) true)
           None None
           (canned_heap (inr {| task := None; data := None |})) c r);
    reflexivity.
Defined.

Lemma search_returns_the_response_only_for_False_witness :
  let hits := [ Hit.mk 0.9 (Some "a") VNone ] in
  let ret := {| task := None; data := Some (Search (OneHit <$> hits)) |} in
  let v := RDataFrame {| columns := ["Score"; "Value"];
                         rows := [ (0.9%Q, Some "a") ] |} in
  ((exists ret', v = RResponse ret') <-> VNone = VBool false)
  /\ ((exists df, v = RDataFrame df) <-> VNone <> VBool false).
Proof.
  intros hits ret v.
  apply (search_returns_the_response_only_for_False
           (QStr "a") 1 false VNone None None (canned_heap (inr ret)) v).
  reflexivity.
Defined.

Lemma search_frame_needs_search_data_witness :
  let ret := {| task := None; data := None |} in
  let h := canned_heap (inr ret) in
  let c :=
    {| route := "embedding-index/search";
       payload := ReqSearch
         (IndexSearchRequest.mk (VStr "idx_1") (Some "a") None 1 false);
       expect := Some Cls.IndexSearchResponse;
       asynchronous := false;
       spaceId := None;
       spaceHandle := None |} in
  search (QStr "a") 1 false (VBool true) None None h =
    (inl (AttributeError "hits"), after_call h c)
  /\ search (QStr "a") 1 false (VBool false) None None h =
    (inr (RResponse ret), after_call h c).
Proof.
  intros ret h c.
  apply (search_frame_needs_search_data
           (QStr "a") 1 false (VBool true) None None h ret c).
  - discriminate.
  - reflexivity.
  - reflexivity.
  - intros hits. discriminate.
Defined.

Lemma create_needs_a_json_body_witness :
  let res := {| task := None; data := None |} in
  let c :=
    {| route := "embedding-index/create";
       payload := ReqCreate
         (IndexCreateRequest.mk "docs" "text-embedding" true None None VNone);
       expect := None;
       asynchronous := false;
       spaceId := None;
       spaceHandle := None |} in
  create (canned (inr res)) "docs" "text-embedding" true None None VNone
    None None {| server := tt; wire := [] |} =
  (inl (AttributeError "get"), {| server := tt; wire := [c] |}).
Proof.
  intros res c.
  apply (create_needs_a_json_body
           (canned (inr res)) "docs" "text-embedding" true None None VNone
           None None {| server := tt; wire := [] |} res tt).
  - reflexivity.
  - intros d. discriminate.
Defined.

Lemma create_then_operate_witness :
  let res := {| task := None; data := Some (Raw ∅) |} in
  exists hd n',
    create (canned (inr res)) "docs" "text-embedding" true None None VNone
      None None {| server := tt; wire := [] |} = (inr hd, n')
    /\ forall (op : Operation) (sid' sh' : option string),
         addresses_index op = true ->
         exists c,
           let h := {| this := hd; net := n' |} in
           snd (invoke Fixture.json_dumps op sid' sh' h) =
             {| this := hd;
                net := {| server := snd (post (canned (inr res)) c (server n'));
                          wire := (wire n' ++ [c])%list |} |}
           /\ target (payload c) = Some VNone.
Proof.
  intros res.
  change (Some VNone)
    with (Some (default VNone ((∅ : gmap string Value) !! "id"))).
  apply (create_then_operate Fixture.json_dumps
           (canned (inr res)) "docs" "text-embedding" true None None VNone
           None None {| server := tt; wire := [] |} res ∅);
    reflexivity.
Defined.
